(** * adbb link layer: a shallow embedding of [adbb/link.py]

    The two classes of the file, [AniDBLink] (the sender) and
    [AniDBListener] (the receiver), are embedded as functions over one
    explicit state.  Python objects that are shared between containers
    (a command sits in the outbound deque and in the listener's dict at
    the same time) live in an object store and are referred to by
    identity.

    The package is Python 3 code (its other modules use f-strings), so
    [sock.recv] returns [bytes].  Exceptions are results of the monad; the
    state in which one is raised is kept, since the attributes written
    before it stay written.  Each method is embedded as a function of the
    state in which it is called; what another thread does between two
    statements of a call is not part of the embedding.  [time()] reads a
    clock that [sleep] advances.

    The file logs through [adbb._log].  The package ([adbb/__init__.py])
    binds the name [log] and never [_log], so each of these statements
    raises [AttributeError]; they are embedded where they stand. *)

From Stdlib Require Import QArith Lqa ZArith List Bool.
From stdpp Require Import gmap strings list pretty.

Open Scope Z_scope.
Open Scope string_scope.

(** ** Python values used by the link *)

(** [time()] returns seconds; we use exact rationals for them. *)
Definition Qgt_bool (a b : Q) : bool := negb (Qle_bool a b).

(** The session attribute holds [None], a session key, or the integer
    [0] stored by [set_banned]. *)
Inductive session :=
| SessNone
| SessZero
| SessKey (k : string).

(** Python truthiness of the session attribute ([not self._session]). *)
Definition session_truthy (s : session) : bool :=
  match s with
  | SessKey k => negb (String.eqb k "")
  | _ => false
  end.

(** [bytes] and [str] are different types in Python 3, and a [bytes]
    value never compares equal to a [str] value. *)
Inductive pyval :=
| PyBytes (b : list Byte.byte)
| PyStr (s : string).

#[global] Instance byte_eq_decision : EqDecision Byte.byte := Byte.byte_eq_dec.

Definition py_eq (x y : pyval) : bool :=
  match x, y with
  | PyBytes a, PyBytes b => bool_decide (a = b)
  | PyStr a, PyStr b => String.eqb a b
  | _, _ => false
  end.

(** Exceptions that can leave a method of the link. *)
Inductive exn :=
| KeyError
| AttributeError
| RuntimeError
| RecursionError
| ZlibError
| TypeError
| UnboundLocalError
| IndexError
| OverflowError
| ValueError
| AniDBMustAuthError
| AniDBPacketCorruptedError.

(** ** Commands *)

(** The class of a command object, as seen by [isinstance]. *)
Inductive cmd_class := AuthCommand | LogoutCommand | OtherCommand.

(** Callbacks: the two bound methods of the link, or a caller's. *)
Inductive handler :=
| auth_handler
| logout_handler
| user_callback (k : nat).

Record Command := mkCommand {
  cls : cmd_class;
  command : string;
  tag : option string;
  started : option Q;
  callback : option handler;
  authorized : option session
}.

Definition set_tag (t : string) (c : Command) : Command :=
  mkCommand (cls c) (command c) (Some t) (started c) (callback c) (authorized c).
Definition set_started (t : option Q) (c : Command) : Command :=
  mkCommand (cls c) (command c) (tag c) t (callback c) (authorized c).
Definition set_callback (h : option handler) (c : Command) : Command :=
  mkCommand (cls c) (command c) (tag c) (started c) h (authorized c).
Definition set_authorized (s : session) (c : Command) : Command :=
  mkCommand (cls c) (command c) (tag c) (started c) (callback c) (Some s).

(** Truthiness of [cmd.started]: [None] and [0.0] are falsy. *)
Definition started_truthy (c : Command) : bool :=
  match started c with
  | Some t => negb (Qeq_bool t 0)
  | None => false
  end.

(** Object identities. *)
Abbreviation oid := nat (only parsing).

(** Calls that leave the link layer. *)
Inductive extcall :=
| CallUser (k : nat) (o : oid)
| CallTimeout (o : oid).

(** ** The state of a link and its listener *)

Record Link := mkLink {
  _queue : list oid;              (* deque, leftmost element first *)
  _last_packet : Q;
  _counter : Z;
  _banned : Z;
  _current_tag : Z;
  _stop : bool;
  _authed : bool;
  _authenticating : bool;
  _session : session;
  cmd_queue : list (string * oid); (* the listener's dict, insertion order *)
  sock : bool;                    (* the listener's socket is open *)
  timeout : Q;                    (* the listener's timeout *)
  heap : gmap oid Command;
  next_oid : oid;
  clock : Q;
  wire : list (oid * Command);    (* datagrams passed to sendto, oldest first *)
  slept : list Q;                 (* arguments of sleep, oldest first *)
  calls : list extcall            (* external calls, oldest first *)
}.

(** A link as [__init__] leaves it. *)
Definition init_link (now tmo : Q) : Link :=
  {| _queue := []; _last_packet := 0%Q; _counter := 0; _banned := 0;
     _current_tag := 0; _stop := false; _authed := false;
     _authenticating := false; _session := SessNone;
     cmd_queue := []; sock := true; timeout := tmo;
     heap := ∅; next_oid := 0%nat; clock := now;
     wire := []; slept := []; calls := [] |}.

(** ** A state and exception monad *)

Inductive outcome (A : Type) :=
| Ok (a : A)
| Raise (e : exn).
Arguments Ok {A} a.
Arguments Raise {A} e.

Definition M (A : Type) : Type := Link -> outcome A * Link.

Definition ret {A} (a : A) : M A := fun s => (Ok a, s).
Definition raise {A} (e : exn) : M A := fun s => (Raise e, s).
Definition bind {A B} (m : M A) (k : A -> M B) : M B :=
  fun s => match m s with
           | (Ok a, s') => k a s'
           | (Raise e, s') => (Raise e, s')
           end.
Definition get : M Link := fun s => (Ok s, s).
Definition modify (f : Link -> Link) : M unit := fun s => (Ok tt, f s).

Notation "'let*' x ':=' m 'in' k" := (bind m (fun x => k))
  (at level 10, x name, m at level 100, k at level 200, only parsing).
Notation "m ';;' k" := (bind m (fun _ => k))
  (at level 100, k at level 200, right associativity).

(** Field updates. *)
Definition with_queue (q : list oid) (s : Link) : Link :=
  mkLink q (_last_packet s) (_counter s) (_banned s) (_current_tag s) (_stop s)
    (_authed s) (_authenticating s) (_session s) (cmd_queue s) (sock s)
    (timeout s) (heap s) (next_oid s) (clock s) (wire s) (slept s) (calls s).
Definition with_last_packet (t : Q) (s : Link) : Link :=
  mkLink (_queue s) t (_counter s) (_banned s) (_current_tag s) (_stop s)
    (_authed s) (_authenticating s) (_session s) (cmd_queue s) (sock s)
    (timeout s) (heap s) (next_oid s) (clock s) (wire s) (slept s) (calls s).
Definition with_counter (n : Z) (s : Link) : Link :=
  mkLink (_queue s) (_last_packet s) n (_banned s) (_current_tag s) (_stop s)
    (_authed s) (_authenticating s) (_session s) (cmd_queue s) (sock s)
    (timeout s) (heap s) (next_oid s) (clock s) (wire s) (slept s) (calls s).
Definition with_banned (n : Z) (s : Link) : Link :=
  mkLink (_queue s) (_last_packet s) (_counter s) n (_current_tag s) (_stop s)
    (_authed s) (_authenticating s) (_session s) (cmd_queue s) (sock s)
    (timeout s) (heap s) (next_oid s) (clock s) (wire s) (slept s) (calls s).
Definition with_current_tag (n : Z) (s : Link) : Link :=
  mkLink (_queue s) (_last_packet s) (_counter s) (_banned s) n (_stop s)
    (_authed s) (_authenticating s) (_session s) (cmd_queue s) (sock s)
    (timeout s) (heap s) (next_oid s) (clock s) (wire s) (slept s) (calls s).
Definition with_stop (b : bool) (s : Link) : Link :=
  mkLink (_queue s) (_last_packet s) (_counter s) (_banned s) (_current_tag s) b
    (_authed s) (_authenticating s) (_session s) (cmd_queue s) (sock s)
    (timeout s) (heap s) (next_oid s) (clock s) (wire s) (slept s) (calls s).
Definition with_authed (b : bool) (s : Link) : Link :=
  mkLink (_queue s) (_last_packet s) (_counter s) (_banned s) (_current_tag s) (_stop s)
    b (_authenticating s) (_session s) (cmd_queue s) (sock s)
    (timeout s) (heap s) (next_oid s) (clock s) (wire s) (slept s) (calls s).
Definition with_authenticating (b : bool) (s : Link) : Link :=
  mkLink (_queue s) (_last_packet s) (_counter s) (_banned s) (_current_tag s) (_stop s)
    (_authed s) b (_session s) (cmd_queue s) (sock s)
    (timeout s) (heap s) (next_oid s) (clock s) (wire s) (slept s) (calls s).
Definition with_session (x : session) (s : Link) : Link :=
  mkLink (_queue s) (_last_packet s) (_counter s) (_banned s) (_current_tag s) (_stop s)
    (_authed s) (_authenticating s) x (cmd_queue s) (sock s)
    (timeout s) (heap s) (next_oid s) (clock s) (wire s) (slept s) (calls s).
Definition with_cmd_queue (d : list (string * oid)) (s : Link) : Link :=
  mkLink (_queue s) (_last_packet s) (_counter s) (_banned s) (_current_tag s) (_stop s)
    (_authed s) (_authenticating s) (_session s) d (sock s)
    (timeout s) (heap s) (next_oid s) (clock s) (wire s) (slept s) (calls s).
Definition with_sock (b : bool) (s : Link) : Link :=
  mkLink (_queue s) (_last_packet s) (_counter s) (_banned s) (_current_tag s) (_stop s)
    (_authed s) (_authenticating s) (_session s) (cmd_queue s) b
    (timeout s) (heap s) (next_oid s) (clock s) (wire s) (slept s) (calls s).
Definition with_heap (h : gmap oid Command) (s : Link) : Link :=
  mkLink (_queue s) (_last_packet s) (_counter s) (_banned s) (_current_tag s) (_stop s)
    (_authed s) (_authenticating s) (_session s) (cmd_queue s) (sock s)
    (timeout s) h (next_oid s) (clock s) (wire s) (slept s) (calls s).
Definition with_next_oid (n : oid) (s : Link) : Link :=
  mkLink (_queue s) (_last_packet s) (_counter s) (_banned s) (_current_tag s) (_stop s)
    (_authed s) (_authenticating s) (_session s) (cmd_queue s) (sock s)
    (timeout s) (heap s) n (clock s) (wire s) (slept s) (calls s).
Definition with_clock (t : Q) (s : Link) : Link :=
  mkLink (_queue s) (_last_packet s) (_counter s) (_banned s) (_current_tag s) (_stop s)
    (_authed s) (_authenticating s) (_session s) (cmd_queue s) (sock s)
    (timeout s) (heap s) (next_oid s) t (wire s) (slept s) (calls s).
Definition with_wire (w : list (oid * Command)) (s : Link) : Link :=
  mkLink (_queue s) (_last_packet s) (_counter s) (_banned s) (_current_tag s) (_stop s)
    (_authed s) (_authenticating s) (_session s) (cmd_queue s) (sock s)
    (timeout s) (heap s) (next_oid s) (clock s) w (slept s) (calls s).
Definition with_slept (l : list Q) (s : Link) : Link :=
  mkLink (_queue s) (_last_packet s) (_counter s) (_banned s) (_current_tag s) (_stop s)
    (_authed s) (_authenticating s) (_session s) (cmd_queue s) (sock s)
    (timeout s) (heap s) (next_oid s) (clock s) (wire s) l (calls s).
Definition with_calls (l : list extcall) (s : Link) : Link :=
  mkLink (_queue s) (_last_packet s) (_counter s) (_banned s) (_current_tag s) (_stop s)
    (_authed s) (_authenticating s) (_session s) (cmd_queue s) (sock s)
    (timeout s) (heap s) (next_oid s) (clock s) (wire s) (slept s) l.

(** ** The environment: clock, sleep, objects *)

(** [time()]. *)
Definition time : M Q := fun s => (Ok (clock s), s).

(** The longest duration [time.sleep] takes: its nanoseconds have to fit
    a signed 64-bit integer. *)
Definition sleep_max : Q := 9223372036854775807 # 1000000000.

(** [sleep(d)]: a duration out of range is an [OverflowError], a negative
    one a [ValueError]; otherwise the thread resumes [d] seconds later. *)
Definition sleep (d : Q) : M unit :=
  if Qgt_bool d sleep_max || Qgt_bool (- d) sleep_max then raise OverflowError
  else if Qgt_bool 0 d then raise ValueError
  else modify (fun s => with_slept (slept s ++ [d]) (with_clock (clock s + d)%Q s)).

(** [adbb._log]: the module [adbb] has no attribute of that name (its
    logger is bound to [log]), so the attribute read raises
    [AttributeError] before the method of the logger is looked up and
    before the arguments of the call are evaluated. *)
Definition _log : M unit := raise AttributeError.

(** Reading and writing the attributes of an object.  Every identity the
    link handles denotes a live object; a dangling one would be an
    [AttributeError]. *)
Definition load (o : oid) : M Command :=
  fun s => match heap s !! o with
           | Some c => (Ok c, s)
           | None => (Raise AttributeError, s)
           end.
Definition store (o : oid) (f : Command -> Command) : M unit :=
  let* c := load o in
  modify (fun s => with_heap (<[o := f c]> (heap s)) s).

(** Creating an object. *)
Definition new_object (c : Command) : M oid :=
  fun s => (Ok (next_oid s),
            with_next_oid (S (next_oid s)) (with_heap (<[next_oid s := c]> (heap s)) s)).

(** ** Python containers *)

(** [d[k] = v] on a dict: an existing key keeps its position. *)
Fixpoint dict_set {V} (k : string) (v : V) (d : list (string * V)) : list (string * V) :=
  match d with
  | [] => [(k, v)]
  | (k', v') :: d' =>
      if String.eqb k' k then (k, v) :: d' else (k', v') :: dict_set k v d'
  end.

Fixpoint dict_get {V} (k : string) (d : list (string * V)) : option V :=
  match d with
  | [] => None
  | (k', v') :: d' => if String.eqb k' k then Some v' else dict_get k d'
  end.

Fixpoint dict_del {V} (k : string) (d : list (string * V)) : list (string * V) :=
  match d with
  | [] => []
  | (k', v') :: d' => if String.eqb k' k then d' else (k', v') :: dict_del k d'
  end.

(** [d.pop(k)] raises [KeyError] for a missing key. *)
Definition dict_pop (k : string) : M oid :=
  fun s => match dict_get k (cmd_queue s) with
           | Some o => (Ok o, with_cmd_queue (dict_del k (cmd_queue s)) s)
           | None => (Raise KeyError, s)
           end.

(** The three deque operations the link uses. *)
Definition deque_append (x : oid) (q : list oid) : list oid := q ++ [x].
Definition deque_appendleft (x : oid) (q : list oid) : list oid := x :: q.
Definition deque_pop (q : list oid) : option (oid * list oid) :=
  match rev q with
  | [] => None
  | x :: r => Some (x, rev r)
  end.

(** ** Tag allocator *)

Definition zero_pad (w : nat) (s : string) : string :=
  String.concat "" (replicate (w - String.length s) "0") ++ s.

(** ["{:03d}".format(n)]: at least three characters, sign included. *)
Definition format_03d (n : Z) : string :=
  if (n <? 0)%Z then "-" ++ zero_pad 2 (pretty (Z.abs n))
  else zero_pad 3 (pretty n).

Definition _new_tag : M string :=
  let* s := get in
  if (_current_tag s >=? 999)%Z then
    modify (with_current_tag 0) ;;
    ret "TOOO"
  else
    modify (with_current_tag (_current_tag s + 1)) ;;
    let* s' := get in
    ret ("T" ++ format_03d (_current_tag s')).

(** The tag and the counter value that [_new_tag] produces from a
    counter value. *)
Definition next_tag (cur : Z) : string * Z :=
  if (cur >=? 999)%Z then ("TOOO", 0)
  else ("T" ++ format_03d (cur + 1), cur + 1).

Lemma _new_tag_eq (s : Link) :
  _new_tag s = (Ok (fst (next_tag (_current_tag s))),
                with_current_tag (snd (next_tag (_current_tag s))) s).
Proof.
  unfold _new_tag, next_tag, bind, get, modify, ret.
  now destruct (_current_tag s >=? 999)%Z.
Qed.

Lemma next_tag_range (cur : Z) : 0 <= cur <= 999 -> 0 <= snd (next_tag cur) <= 999.
Proof. intros H. unfold next_tag. destruct (cur >=? 999)%Z eqn:E; simpl; lia. Qed.

Example format_03d_7 : format_03d 7 = "007".
Proof. reflexivity. Qed.
Example format_03d_42 : format_03d 42 = "042".
Proof. reflexivity. Qed.
Example format_03d_999 : format_03d 999 = "999".
Proof. reflexivity. Qed.
Example format_03d_1234 : format_03d 1234 = "1234".
Proof. reflexivity. Qed.
Example format_03d_neg : format_03d (-1) = "-01".
Proof. reflexivity. Qed.

(** ** [AniDBLink]: pacing, sending, requests *)

(** The expression of the ban branch of [_do_delay]:
    [max(pow(2*3600, self._banned), 48*3600)]. *)
Definition ban_delay (banned : Z) : Z :=
  Z.max (Z.pow (2 * 3600) banned) (48 * 3600).

(** The methods [_do_delay], [_send_command], [request] and
    [_reauthenticate] call each other in a cycle.  The first three are
    written over the method that closes the cycle. *)
Section Cycle.
Variable _reauthenticate_rec : M unit.

Definition _do_delay_body : M unit :=
  let* s := get in
  if (_banned s >? 0)%Z then
    let delay := ban_delay (_banned s) in
    _log ;;
    sleep (inject_Z delay) ;;
    _log ;;
    _reauthenticate_rec
  else
    let* now := time in
    let age := (now - _last_packet s)%Q in
    let* delay :=
      (if Qgt_bool age 120 then
         modify (with_counter 0) ;; ret 0%Q
       else if (_counter s <? 5)%Z then ret 2%Q
       else ret 6%Q) in
    let delay := (delay - age)%Q in
    if Qgt_bool delay 0 then
      _log ;;
      sleep delay
    else ret tt.

Definition _send_command_body (o : oid) : M unit :=
  _do_delay_body ;;
  let* s := get in
  let* c := load o in
  if negb (session_truthy (_session s))
     && negb (bool_decide (command c ∈ ["AUTH"; "PING"; "ENCRYPT"]))
  then raise AniDBMustAuthError
  else
    store o (set_authorized (_session s)) ;;
    modify (fun s => with_counter (_counter s + 1) s) ;;
    let* t := time in
    modify (with_last_packet t) ;;
    let* t' := time in
    store o (set_started (Some t')) ;;
    let* data := load o in
    (if String.eqb (command data) "AUTH" then _log else _log) ;;
    let* s := get in
    if sock s then modify (fun s => with_wire (wire s ++ [(o, data)]) s)
    else raise AttributeError.

(** The last statement of [request]: the two ends of the deque. *)
Definition request_enqueue (o : oid) (prio : bool) : M unit :=
  if prio then
    modify (fun s => with_queue (deque_append o (_queue s)) s)
  else
    modify (fun s => with_queue (deque_appendleft o (_queue s)) s).

Definition request_body (o : oid) (cb : option handler) (prio : bool) : M unit :=
  store o (set_started None) ;;
  store o (set_callback cb) ;;
  let* t := _new_tag in
  store o (set_tag t) ;;
  modify (fun s => with_cmd_queue (dict_set t o (cmd_queue s)) s) ;;
  _log ;;
  let* c := load o in
  if String.eqb (command c) "AUTH" then
    _send_command_body o
  else request_enqueue o prio.

(** [adbb.commands.AuthCommand(...)]: a new object of that class. *)
Definition new_AuthCommand : M oid :=
  new_object (mkCommand AuthCommand "AUTH" None None None None).

Definition _reauthenticate_step : M unit :=
  let* s := get in
  if _authenticating s || _authed s then ret tt
  else
    modify (with_authenticating true) ;;
    let* req := new_AuthCommand in
    request_body req (Some auth_handler) false.
End Cycle.

(** Python bounds the depth of the call stack. *)
Definition recursion_limit : nat := 1000.

Fixpoint _reauthenticate_depth (d : nat) (s : Link) {struct d} : outcome unit * Link :=
  match d with
  | O => raise RecursionError s
  | S d' => _reauthenticate_step (_reauthenticate_depth d') s
  end.

Definition _reauthenticate : M unit := _reauthenticate_depth recursion_limit.
Definition _do_delay : M unit := _do_delay_body _reauthenticate.
Definition _send_command : oid -> M unit := _send_command_body _reauthenticate.
Definition request : oid -> option handler -> bool -> M unit :=
  request_body _reauthenticate.

Definition _logout_handler : M unit := modify (with_stop true).

Definition _auth_handler : M unit :=
  modify (with_banned 0) ;;
  modify (with_authed true) ;;
  modify (with_authenticating false).

Definition set_session (x : session) : M unit := modify (with_session x).

Definition reauthenticate : M unit :=
  modify (with_authed false) ;;
  modify (with_session SessNone) ;;
  _reauthenticate.

(** [adbb.commands.LogoutCommand()]. *)
Definition new_LogoutCommand : M oid :=
  new_object (mkCommand LogoutCommand "LOGOUT" None None None None).

(** [self.timeout] and [self.banned] read attributes of the link that
    [__init__] never creates (it creates [_banned]; [timeout] belongs to
    the listener), and [threading.Thread] has neither. *)
Definition link_attr_timeout : M Q := raise AttributeError.
Definition link_attr_banned : M Z := raise AttributeError.

Definition stop : M unit :=
  let* s := get in
  if _authed s then
    _log ;;
    let* req := new_LogoutCommand in
    request req (Some logout_handler) false ;;
    let* t := link_attr_timeout in
    (* self._stop.wait(t) *)
    ret tt
  else ret tt.

Definition set_banned (reason : string) : M unit :=
  _log ;;
  let* b := link_attr_banned in
  (* the store of [b + 1] into [self.banned] would follow here *)
  modify (with_authed false) ;;
  modify (with_session SessZero) ;;
  _reauthenticate.

(** ** [AniDBLink.run]: the sender thread

    The loop is cut at the two places where the thread waits: the poll of
    the queue and [self._authed.wait()]. *)
Inductive sender_pc :=
| SenderPolling
| SenderWaitAuth (o : oid)
| SenderExited
| SenderCrashed (e : exn).

(** From the send of a command to the next poll. *)
Definition run_send (o : oid) : M sender_pc :=
  _send_command o ;;
  let* c := load o in
  if String.eqb (command c) "LOGOUT" then ret SenderExited
  else ret SenderPolling.

(** One look at the queue: a round of the inner loop when it is empty
    ([None]), or [self._queue.pop()]. *)
Definition run_dequeue : M (option oid) :=
  let* s := get in
  if (Z.of_nat (length (_queue s)) <? 1)%Z then
    sleep (2 # 10) ;; ret None
  else
    match deque_pop (_queue s) with
    | None => raise IndexError
    | Some (o, q') => modify (with_queue q') ;; ret (Some o)
    end.

(** From the poll to [self._authed.wait()] (or, for [AUTH], to the next
    poll). *)
Definition run_poll : M sender_pc :=
  let* r := run_dequeue in
  match r with
  | None => ret SenderPolling
  | Some o =>
      _log ;;
      let* c := load o in
      if negb (String.eqb (command c) "AUTH") then
        let* s := get in
        (if negb (_authed s) then _reauthenticate else ret tt) ;;
        ret (SenderWaitAuth o)
      else run_send o
  end.

(** [self._authed.wait()] returns once the flag is set. *)
Definition run_wait (o : oid) : M sender_pc :=
  let* s := get in
  if _authed s then run_send o else ret (SenderWaitAuth o).

(** ** [AniDBListener] *)

(** A parsed response, as far as the listener reads it. *)
Record Response := mkResponse {
  restag : string;
  rescode : string;
  sesskey : option string;       (* resp.attrs.get('sesskey') *)
  datalines : list string;
  resstr : string
}.

(** [AniDBListener.stop]: the log call, then [_disconnect_socket]. *)
Definition listener_stop : M unit :=
  _log ;;
  modify (with_sock false).

(** Modelled from the spec: [cmd.handle_timeout(link)] is defined in
    [adbb.commands], which is not part of the sources at hand.  It is the
    request's timeout handler, which signals that no reply was received;
    the call is recorded. *)
Definition handle_timeout (o : oid) : M unit :=
  modify (fun s => with_calls (calls s ++ [CallTimeout o]) s).

(** Modelled from the spec: [resp.handle()] is defined in
    [adbb.responses], which is not part of the sources at hand.  It
    delivers the parsed response to the callback of the originating
    request. *)
Definition handle (o : oid) : M unit :=
  let* c := load o in
  match callback c with
  | Some auth_handler => _auth_handler
  | Some logout_handler => _logout_handler
  | Some (user_callback k) =>
      modify (fun s => with_calls (calls s ++ [CallUser k o]) s)
  | None => raise TypeError
  end.

(** The first loop of [_handle_timeouts].  [cmd] is the loop variable,
    which stays bound after the loop. *)
Fixpoint timeouts_scan (items : list (string * oid)) (cmd : option oid)
    (willpop : list (option string)) : M (option oid * list (option string)) :=
  match items with
  | [] => ret (cmd, willpop)
  | (t, o) :: rest =>
      if String.eqb t "" then timeouts_scan rest (Some o) willpop
      else
        let* c := load o in
        if started_truthy c then
          let* now := time in
          let* s := get in
          if Qgt_bool (now - default 0%Q (started c))%Q (timeout s) then
            timeouts_scan rest (Some o) (willpop ++ [tag c])
          else timeouts_scan rest (Some o) willpop
        else timeouts_scan rest (Some o) willpop
  end.

(** The second loop.  [isinstance] looks at [cmd] before the [pop] of
    this round rebinds it. *)
Fixpoint timeouts_pop (willpop : list (option string)) (cmd : option oid) : M unit :=
  match willpop with
  | [] => ret tt
  | t :: rest =>
      let* o := (match cmd with Some o => ret o | None => raise UnboundLocalError end) in
      let* c := load o in
      (match cls c with
       | AuthCommand => reauthenticate
       | _ => ret tt
       end) ;;
      let* o' := (match t with Some k => dict_pop k | None => raise KeyError end) in
      handle_timeout o' ;;
      timeouts_pop rest (Some o')
  end.

Definition _handle_timeouts : M unit :=
  let* s := get in
  let* r := timeouts_scan (cmd_queue s) None [] in
  timeouts_pop (snd r) (fst r).

Section Receiver.
(** [zlib.decompressobj().decompress]; [None] stands for [zlib.error]. *)
Variable decompress : list Byte.byte -> option (list Byte.byte).
(** [adbb.responses.ResponseResolver]; [None] stands for a falsy
    result. *)
Variable ResponseResolver : list Byte.byte -> option Response.

(** The two-byte marker, written as a [str] literal in the source. *)
Definition marker : pyval := PyStr (String Ascii.zero (String Ascii.zero "")).

(** One pass of the body of [for i in range(2)]. *)
Definition unpack (data : list Byte.byte) : M (option Response) :=
  let tmp := data in
  let* tmp :=
    (if py_eq (PyBytes (take 2 tmp)) marker then
       match decompress (drop 2 tmp) with
       | Some b => _log ;; ret b
       | None => raise ZlibError
       end
     else ret tmp) in
  ret (ResponseResolver tmp).

(** The loop body of [AniDBListener.run] after [recv] returned [data]. *)
Definition on_data (data : list Byte.byte) : M unit :=
  _log ;;
  unpack data ;;
  let* r := unpack data in
  match r with
  | None => raise AniDBPacketCorruptedError
  | Some resp =>
      let* cmd := dict_pop (restag resp) in
      if bool_decide (rescode resp ∈ ["200"; "201"]) then
        (match sesskey resp with
         | Some k => set_session (SessKey k)
         | None => raise KeyError
         end) ;;
        handle cmd
      else if bool_decide (rescode resp ∈ ["209"]) then
        _log ;;
        raise RuntimeError
      else if bool_decide (rescode resp ∈ ["501"; "506"; "403"]) then
        reauthenticate ;;
        let* c := load cmd in
        request cmd (callback c) true
      else if bool_decide (rescode resp ∈ ["203"; "500"; "503"]) then
        listener_stop ;;
        handle cmd
      else if bool_decide (rescode resp ∈ ["504"; "555"]) then
        let reason := match datalines resp with
                      | l :: _ => l
                      | [] => resstr resp
                      end in
        set_banned reason ;;
        let* c := load cmd in
        request cmd (callback c) true
      else handle cmd
  end.
End Receiver.

(** ** The two threads and their callers *)

(** Where the listener thread is. *)

Inductive listener_pc :=
| ListenerRunning
| ListenerExited
| ListenerCrashed (e : exn).

Record System := mkSystem {
  link : Link;
  sender : sender_pc;
  listener : listener_pc
}.

(** The link right after [AniDBLink.__init__]: both threads started. *)
Definition fresh_system (now tmo : Q) : System :=
  mkSystem (init_link now tmo) SenderPolling ListenerRunning.

(** An uncaught exception ends the thread it is raised in. *)
Definition sender_after (r : outcome sender_pc) : sender_pc :=
  match r with
  | Ok pc => pc
  | Raise e => SenderCrashed e
  end.

Definition listener_after (r : outcome unit) : listener_pc :=
  match r with
  | Ok _ => ListenerRunning
  | Raise e => ListenerCrashed e
  end.

(** A caller builds a command object and hands it to [request]. *)
Definition caller_request (cl : cmd_class) (name : string) (cb : option nat)
    (prio : bool) : M unit :=
  let* o := new_object (mkCommand cl name None None None None) in
  request o (user_callback <$> cb) prio.

(** A caller's [stop()]: it runs in the caller's thread. *)
Definition system_stop (sys : System) : System :=
  mkSystem (snd (stop (link sys))) (sender sys) (listener sys).

(** Stand-ins for the two external functions, used to run examples: the
    resolver reads ["<tag> <code> <text>"], the decompressor returns its
    input. *)
Definition demo_decompress (b : list Byte.byte) : option (list Byte.byte) := Some b.

Definition demo_resolver (b : list Byte.byte) : option Response :=
  let s := String.string_of_list_byte b in
  let t := String.substring 0 4 s in
  let c := String.substring 5 3 s in
  let rest := String.substring 9 (String.length s - 9) s in
  if (String.length s <? 8)%nat then None
  else Some (mkResponse t c
               (if bool_decide (c ∈ ["200"; "201"]) then Some (String.substring 0 5 rest) else None)
               [] rest).

Definition datagram (s : string) : list Byte.byte := String.list_byte_of_string s.

Example demo_resolver_login :
  demo_resolver (datagram "T002 200 abcde LOGIN ACCEPTED")
  = Some (mkResponse "T002" "200" (Some "abcde") [] "abcde LOGIN ACCEPTED").
Proof. reflexivity. Qed.

(** * Properties *)

(** ** What each method computes

    Every log statement raises, and a call ends where it meets the first
    one.  The lemmas of this section give the result of each method of
    the link in closed form. *)

Lemma Qgt_bool_true (a b : Q) : Qgt_bool a b = true <-> (b < a)%Q.
Proof.
  unfold Qgt_bool. rewrite negb_true_iff. split.
  - intros H. apply Qnot_le_lt. intros Hle.
    apply Qle_bool_iff in Hle. congruence.
  - intros H. destruct (Qle_bool a b) eqn:E; [|reflexivity].
    apply Qle_bool_iff in E. exfalso. exact (Qlt_not_le _ _ H E).
Qed.

Lemma Qgt_bool_false (a b : Q) : Qgt_bool a b = false <-> (a <= b)%Q.
Proof.
  unfold Qgt_bool. rewrite negb_false_iff. apply Qle_bool_iff.
Qed.

(** The delay the pacing step aims at, before the elapsed time is taken
    off. *)
Definition target_delay (s : Link) : Q :=
  if (_counter s <? 5)%Z then 2%Q else 6%Q.

(** The state after a [sleep d] that returned. *)
Definition after_sleep (d : Q) (s : Link) : Link :=
  with_slept (slept s ++ [d]) (with_clock (clock s + d)%Q s).

Lemma sleep_poll (s : Link) : sleep (2 # 10) s = (Ok tt, after_sleep (2 # 10) s).
Proof. reflexivity. Qed.

Lemma log_bind {A} (k : unit -> M A) (s : Link) :
  bind _log k s = (Raise AttributeError, s).
Proof. reflexivity. Qed.

(** [_do_delay]: the ban branch ends at its first log statement, the
    pacing branch at the log statement that precedes its [sleep]. *)
Lemma _do_delay_body_eq (rec : M unit) (s : Link) :
  _do_delay_body rec s =
    if (_banned s >? 0)%Z then (Raise AttributeError, s)
    else
      let age := (clock s - _last_packet s)%Q in
      if Qgt_bool age 120 then (Ok tt, with_counter 0 s)
      else if Qgt_bool (target_delay s - age)%Q 0 then (Raise AttributeError, s)
      else (Ok tt, s).
Proof.
  unfold _do_delay_body, bind at 1, get at 1.
  destruct (_banned s >? 0)%Z; [reflexivity|].
  unfold bind at 1, time at 1, target_delay. cbn zeta.
  destruct (Qgt_bool (clock s - _last_packet s) 120) eqn:Hage.
  - unfold bind, modify, ret. cbn [fst snd].
    assert (Qgt_bool (0 - (clock s - _last_packet s)) 0 = false) as ->.
    { apply Qgt_bool_false. apply Qgt_bool_true in Hage. lra. }
    reflexivity.
  - destruct (_counter s <? 5)%Z; unfold bind at 1, ret at 1;
      match goal with |- context [Qgt_bool ?d 0] => destruct (Qgt_bool d 0) end;
      reflexivity.
Qed.

Lemma _do_delay_eq (s : Link) :
  _do_delay s =
    if (_banned s >? 0)%Z then (Raise AttributeError, s)
    else
      let age := (clock s - _last_packet s)%Q in
      if Qgt_bool age 120 then (Ok tt, with_counter 0 s)
      else if Qgt_bool (target_delay s - age)%Q 0 then (Raise AttributeError, s)
      else (Ok tt, s).
Proof. apply _do_delay_body_eq. Qed.

(** The state [request] leaves behind for a live command [c] at [o]: the
    command has lost its send stamp and got the callback and the next
    tag, and the table holds it under that tag. *)
Definition registered (o : oid) (c : Command) (cb : option handler) (s : Link) : Link :=
  let t := fst (next_tag (_current_tag s)) in
  with_cmd_queue (dict_set t o (cmd_queue s))
    (with_heap (<[o := set_tag t (set_callback cb (set_started None c))]> (heap s))
       (with_current_tag (snd (next_tag (_current_tag s))) s)).

(** [request] ends at its log statement, after the store into the table
    and before the send or the deque. *)
Lemma request_body_eq (rec : M unit) (o : oid) (c : Command) (cb : option handler)
    (prio : bool) (s : Link) :
  heap s !! o = Some c ->
  request_body rec o cb prio s = (Raise AttributeError, registered o c cb s).
Proof.
  intros Hc. unfold request_body.
  unfold bind at 1, store at 1, bind at 1, load at 1. rewrite Hc.
  unfold modify at 1.
  unfold bind at 1, store at 1, bind at 1, load at 1. cbn [heap with_heap].
  rewrite lookup_insert_eq. unfold modify at 1.
  unfold bind at 1. rewrite _new_tag_eq.
  unfold bind at 1, store at 1, bind at 1, load at 1.
  cbn [heap with_heap with_current_tag]. rewrite lookup_insert_eq. unfold modify at 1.
  unfold bind at 1, modify at 1. rewrite log_bind.
  unfold registered, with_cmd_queue, with_heap, with_current_tag. cbn.
  now rewrite !insert_insert_eq.
Qed.

Lemma request_body_dangling (rec : M unit) (o : oid) (cb : option handler)
    (prio : bool) (s : Link) :
  heap s !! o = None ->
  request_body rec o cb prio s = (Raise AttributeError, s).
Proof.
  intros Hc. unfold request_body, bind at 1, store at 1, bind at 1, load at 1.
  now rewrite Hc.
Qed.

Lemma request_eq (o : oid) (c : Command) (cb : option handler) (prio : bool) (s : Link) :
  heap s !! o = Some c ->
  request o cb prio s = (Raise AttributeError, registered o c cb s).
Proof. apply request_body_eq. Qed.

(** The state in which [_reauthenticate] hands its new [AuthCommand] to
    [request]. *)
Definition auth_command : Command := mkCommand AuthCommand "AUTH" None None None None.

Definition login_started (s : Link) : Link :=
  with_next_oid (S (next_oid s))
    (with_heap (<[next_oid s := auth_command]> (heap s))
       (with_authenticating true s)).

Lemma _reauthenticate_step_eq (rec : M unit) (s : Link) :
  _reauthenticate_step rec s =
    if _authenticating s || _authed s then (Ok tt, s)
    else (Raise AttributeError,
          registered (next_oid s) auth_command (Some auth_handler) (login_started s)).
Proof.
  unfold _reauthenticate_step, bind at 1, get at 1.
  destruct (_authenticating s || _authed s); [reflexivity|].
  unfold bind at 1, modify at 1, bind at 1, new_AuthCommand, new_object.
  cbn [next_oid heap with_authenticating].
  fold auth_command.
  rewrite (request_body_eq rec (next_oid s) auth_command); [reflexivity|].
  cbn. apply lookup_insert_eq.
Qed.

Lemma _reauthenticate_eq (s : Link) :
  _reauthenticate s =
    if _authenticating s || _authed s then (Ok tt, s)
    else (Raise AttributeError,
          registered (next_oid s) auth_command (Some auth_handler) (login_started s)).
Proof.
  unfold _reauthenticate. change recursion_limit with (S 999).
  cbn [_reauthenticate_depth]. apply _reauthenticate_step_eq.
Qed.

Lemma reauthenticate_eq (s : Link) :
  reauthenticate s = _reauthenticate (with_session SessNone (with_authed false s)).
Proof. reflexivity. Qed.

Lemma stop_eq (s : Link) :
  stop s = if _authed s then (Raise AttributeError, s) else (Ok tt, s).
Proof. unfold stop, bind at 1, get at 1. now destruct (_authed s). Qed.

Lemma set_banned_eq (reason : string) (s : Link) :
  set_banned reason s = (Raise AttributeError, s).
Proof. reflexivity. Qed.

Lemma listener_stop_eq (s : Link) : listener_stop s = (Raise AttributeError, s).
Proof. reflexivity. Qed.

Lemma on_data_eq
    (decompress : list Byte.byte -> option (list Byte.byte))
    (ResponseResolver : list Byte.byte -> option Response)
    (data : list Byte.byte) (s : Link) :
  on_data decompress ResponseResolver data s = (Raise AttributeError, s).
Proof. reflexivity. Qed.

(** What [_send_command] has done to the link when it reaches the log
    statement that precedes [sendto]. *)
Definition stamped (o : oid) (c : Command) (s : Link) : Link :=
  with_heap (<[o := set_started (Some (clock s)) (set_authorized (_session s) c)]> (heap s))
    (with_last_packet (clock s) (with_counter (_counter s + 1) s)).

(** The command may pass the session test of [_send_command]. *)
Definition sendable (s : Link) (c : Command) : bool :=
  session_truthy (_session s)
  || bool_decide (command c ∈ ["AUTH"; "PING"; "ENCRYPT"]).

(** The part of [_send_command] after [_do_delay]. *)
Lemma _send_command_body_eq (rec : M unit) (o : oid) (c : Command) (s : Link) :
  heap s !! o = Some c ->
  _send_command_body rec o s =
    match _do_delay s with
    | (Ok _, s1) =>
        if sendable s1 c then (Raise AttributeError, stamped o c s1)
        else (Raise AniDBMustAuthError, s1)
    | (Raise e, s1) => (Raise e, s1)
    end.
Proof.
  intros Hc. unfold _send_command_body, bind at 1.
  replace (_do_delay_body rec s) with (_do_delay s)
    by (unfold _do_delay; now rewrite !_do_delay_body_eq).
  destruct (_do_delay s) as [[[]|e] s1] eqn:Hd; [|reflexivity].
  assert (heap s1 = heap s) as Hh.
  { rewrite _do_delay_eq in Hd. revert Hd.
    destruct (_banned s >? 0)%Z; [discriminate|]. cbn zeta.
    destruct (Qgt_bool (clock s - _last_packet s) 120).
    - now intros [= <-].
    - destruct (Qgt_bool _ 0); [discriminate|]. now intros [= <-]. }
  unfold bind at 1, get at 1, bind at 1, load at 1. rewrite Hh, Hc.
  unfold sendable.
  destruct (session_truthy (_session s1)) eqn:Hs; cbn [negb andb orb].
  2: destruct (bool_decide (command c ∈ ["AUTH"; "PING"; "ENCRYPT"])) eqn:Hn;
       cbn [negb]; [|reflexivity].
  all: unfold bind at 1, store at 1, bind at 1, load at 1; rewrite Hh, Hc;
       unfold modify at 1;
       unfold bind at 1, modify at 1;
       unfold bind at 1, time at 1;
       unfold bind at 1, modify at 1;
       unfold bind at 1, time at 1;
       unfold bind at 1, store at 1, bind at 1, load at 1;
       cbn [heap with_heap with_counter with_last_packet];
       rewrite lookup_insert_eq; unfold modify at 1;
       unfold bind at 1, load at 1;
       cbn [heap with_heap with_counter with_last_packet];
       rewrite lookup_insert_eq;
       unfold bind at 1;
       match goal with
       | |- context [if ?b then _log else _log] => destruct b
       end;
       cbn [_log raise];
       unfold stamped, with_heap, with_last_packet, with_counter; cbn;
       rewrite Hh, insert_insert_eq; reflexivity.
Qed.

Lemma _do_delay_keeps (s : Link) (s1 : Link) :
  _do_delay s = (Ok tt, s1) -> heap s1 = heap s /\ clock s1 = clock s.
Proof.
  rewrite _do_delay_eq.
  destruct (_banned s >? 0)%Z; [discriminate|]. cbn zeta.
  destruct (Qgt_bool (clock s - _last_packet s) 120).
  - intros [= <-]. now split.
  - destruct (Qgt_bool _ 0); [discriminate|]. intros [= <-]. now split.
Qed.

Lemma _send_command_body_dangling (rec : M unit) (o : oid) (s : Link) :
  heap s !! o = None ->
  _send_command_body rec o s =
    match _do_delay s with
    | (Ok _, s1) => (Raise AttributeError, s1)
    | (Raise e, s1) => (Raise e, s1)
    end.
Proof.
  intros Hc. unfold _send_command_body, bind at 1.
  replace (_do_delay_body rec s) with (_do_delay s)
    by (unfold _do_delay; now rewrite !_do_delay_body_eq).
  destruct (_do_delay s) as [[[]|e] s1] eqn:Hd; [|reflexivity].
  destruct (_do_delay_keeps s s1 Hd) as [Hh _].
  unfold bind at 1, get at 1, bind at 1, load at 1. now rewrite Hh, Hc.
Qed.

(** [_send_command] never returns normally. *)
Lemma outcome_of_send (o : oid) (s : Link) : exists e, fst (_send_command o s) = Raise e.
Proof.
  unfold _send_command. destruct (heap s !! o) as [c|] eqn:Hc.
  - rewrite (_send_command_body_eq _ o c s Hc).
    destruct (_do_delay s) as [[[]|e] s1]; [|now exists e].
    destruct (sendable s1 c); eexists; reflexivity.
  - rewrite (_send_command_body_dangling _ o s Hc).
    destruct (_do_delay s) as [[[]|e] s1]; eexists; reflexivity.
Qed.

(** ** A run of the link, used by the examples below *)

Definition exec {A} (m : M A) (s : Link) : Link := snd (m s).

(** ** Tags *)

(** The tag as a function of the counter value that [_new_tag] leaves
    behind. *)
Definition tag_of (v : Z) : string :=
  if (v =? 0)%Z then "TOOO" else "T" ++ format_03d v.

Lemma next_tag_mod (cur : Z) :
  0 <= cur <= 999 ->
  next_tag cur = (tag_of ((cur + 1) mod 1000), (cur + 1) mod 1000).
Proof.
  intros H. unfold next_tag, tag_of. destruct (cur >=? 999)%Z eqn:E.
  - assert (cur = 999) as -> by lia. reflexivity.
  - rewrite Z.mod_small by lia.
    now assert ((cur + 1 =? 0)%Z = false) as -> by lia.
Qed.

Lemma mod_1000_range (x : Z) : 0 <= x mod 1000 <= 999.
Proof. pose proof (Z.mod_pos_bound x 1000). lia. Qed.

(** Reading the counter value back from a tag. *)
Definition digit (a : Ascii.ascii) : Z := Z.of_nat (Ascii.nat_of_ascii a) - 48.

Definition untag (t : string) : Z :=
  if String.eqb t "TOOO" then 0
  else match t with
       | String _ (String a (String b (String c EmptyString))) =>
           100 * digit a + 10 * digit b + digit c
       | _ => -1
       end.

Lemma untag_tag_of (v : Z) : 0 <= v <= 999 -> untag (tag_of v) = v.
Proof.
  intros H.
  assert (forallb (fun i => (untag (tag_of (Z.of_nat i)) =? Z.of_nat i)%Z) (seq 0 1000)
          = true) as Hall by (vm_compute; reflexivity).
  rewrite forallb_forall in Hall.
  specialize (Hall (Z.to_nat v)). rewrite Z2Nat.id in Hall by lia.
  apply Z.eqb_eq, Hall. apply in_seq. lia.
Qed.

Lemma tag_of_inj (v w : Z) :
  0 <= v <= 999 -> 0 <= w <= 999 -> tag_of v = tag_of w -> v = w.
Proof.
  intros Hv Hw H. rewrite <- (untag_tag_of v Hv), <- (untag_tag_of w Hw). now rewrite H.
Qed.

(** [n] allocations in a row. *)
Fixpoint new_tags (n : nat) : M (list string) :=
  match n with
  | O => ret []
  | S n' =>
      let* t := _new_tag in
      let* ts := new_tags n' in
      ret (t :: ts)
  end.

Fixpoint tags_from (n : nat) (cur : Z) : list string * Z :=
  match n with
  | O => ([], cur)
  | S n' =>
      let (ts, cur') := tags_from n' (snd (next_tag cur)) in
      (fst (next_tag cur) :: ts, cur')
  end.

Lemma new_tags_eq (n : nat) (s : Link) :
  new_tags n s = (Ok (fst (tags_from n (_current_tag s))),
                  match n with
                  | O => s
                  | S _ => with_current_tag (snd (tags_from n (_current_tag s))) s
                  end).
Proof.
  revert s. induction n as [|n IH]; intros s; [reflexivity|].
  simpl. unfold bind. rewrite _new_tag_eq, IH. simpl.
  destruct (tags_from n (snd (next_tag (_current_tag s)))) as [ts cur'] eqn:E. simpl.
  destruct n; [|reflexivity]. simpl in E. now injection E as <- <-.
Qed.

Lemma new_tags_counter (n : nat) (s : Link) :
  _current_tag (snd (new_tags n s)) = snd (tags_from n (_current_tag s)).
Proof. rewrite new_tags_eq. now destruct n. Qed.

Lemma tags_from_mod (n : nat) (cur : Z) :
  0 <= cur <= 999 ->
  fst (tags_from n cur)
  = map (fun i => tag_of ((cur + Z.of_nat i) mod 1000)) (seq 1 n).
Proof.
  revert cur. induction n as [|n IH]; intros cur Hcur; [reflexivity|].
  simpl. rewrite (next_tag_mod cur Hcur). simpl.
  destruct (tags_from n ((cur + 1) mod 1000)) as [ts cur'] eqn:E. simpl.
  f_equal.
  replace ts with (fst (tags_from n ((cur + 1) mod 1000))) by now rewrite E.
  rewrite IH by apply mod_1000_range.
  rewrite <- (List.seq_shift n 1), List.map_map. apply List.map_ext. intros i.
  f_equal. rewrite Zplus_mod_idemp_l. f_equal. lia.
Qed.

(** Up to 1000 tags allocated in a row are pairwise different. *)
Lemma tags_from_NoDup (n : nat) (cur : Z) :
  0 <= cur <= 999 -> (n <= 1000)%nat -> NoDup (fst (tags_from n cur)).
Proof.
  intros Hcur Hn. rewrite tags_from_mod by assumption.
  apply NoDup_ListNoDup, List.NoDup_map_NoDup_ForallPairs.
  - intros i j Hi Hj Heq. apply in_seq in Hi, Hj.
    apply tag_of_inj in Heq; try apply mod_1000_range.
    pose proof (Z.div_mod (cur + Z.of_nat i) 1000).
    pose proof (Z.div_mod (cur + Z.of_nat j) 1000).
    rewrite Heq in *. lia.
  - apply List.seq_NoDup.
Qed.

(** The 1001st tag is the first one again. *)
Lemma tags_from_period (cur : Z) :
  0 <= cur <= 999 ->
  fst (next_tag (snd (tags_from 1000 cur))) = fst (next_tag cur).
Proof.
  intros Hcur.
  assert (forall n c, 0 <= c <= 999 ->
            snd (tags_from n c) = (c + Z.of_nat n) mod 1000) as Hsnd.
  { induction n as [|n IH]; intros c Hc.
    - simpl. rewrite Z.mod_small; lia.
    - simpl. rewrite (next_tag_mod c Hc). simpl.
      destruct (tags_from n ((c + 1) mod 1000)) as [ts c'] eqn:E. simpl.
      replace c' with (snd (tags_from n ((c + 1) mod 1000))) by now rewrite E.
      rewrite IH by apply mod_1000_range.
      rewrite Zplus_mod_idemp_l. f_equal. lia. }
  rewrite Hsnd by assumption.
  change (Z.of_nat 1000) with (1 * 1000). rewrite Z.mod_add by lia.
  rewrite Z.mod_small by lia. reflexivity.
Qed.

Lemma dict_get_set {V} (k : string) (v : V) d : dict_get k (dict_set k v d) = Some v.
Proof.
  induction d as [|[k0 v0] d IH]; simpl.
  - now rewrite String.eqb_refl.
  - destruct (String.eqb k0 k) eqn:E; simpl.
    + now rewrite String.eqb_refl.
    + now rewrite E.
Qed.

Lemma dict_get_elem {V} (k : string) (v : V) d : dict_get k d = Some v -> (k, v) ∈ d.
Proof.
  induction d as [|[k' v'] d IH]; simpl; [discriminate|].
  destruct (String.eqb_spec k' k) as [->|Hne].
  - intros [= ->]. apply elem_of_cons. now left.
  - intros H. apply elem_of_cons. right. auto.
Qed.

Lemma dict_set_elem {V} (k : string) (v : V) d k' v' :
  (k', v') ∈ dict_set k v d -> (k' = k /\ v' = v) \/ (k', v') ∈ d.
Proof.
  induction d as [|[k0 v0] d IH]; simpl.
  - rewrite elem_of_cons, elem_of_nil. intros [[= -> ->]|[]]. now left.
  - destruct (String.eqb_spec k0 k) as [->|Hne]; rewrite !elem_of_cons.
    + intros [[= -> ->]|H]; [now left|]. right. now right.
    + intros [H|H]; [right; now left|].
      destruct (IH H) as [?|?]; [now left|]. right. now right.
Qed.

Lemma dict_set_keys {V} (k : string) (v : V) d :
  NoDup d.*1 -> NoDup (dict_set k v d).*1.
Proof.
  induction d as [|[k0 v0] d IH]; simpl.
  - intros _. apply NoDup_singleton.
  - rewrite NoDup_cons. intros [Hk0 Hnd].
    destruct (String.eqb_spec k0 k) as [->|Hne]; simpl; apply NoDup_cons.
    + done.
    + split; [|auto]. intros Hin. apply list_elem_of_fmap in Hin as [[k1 v1] [Hk1 Hin]].
      simpl in Hk1. subst k1. apply dict_set_elem in Hin as [[-> _]|Hin]; [done|].
      apply Hk0. apply list_elem_of_fmap. now exists (k0, v1).
Qed.

Lemma dict_get_set_ne {V} (k k' : string) (v : V) d :
  k' <> k -> dict_get k' (dict_set k v d) = dict_get k' d.
Proof.
  intros Hne. induction d as [|[k0 v0] d IH]; simpl.
  - destruct (String.eqb_spec k k'); [congruence|reflexivity].
  - destruct (String.eqb_spec k0 k) as [->|Hk]; simpl.
    + destruct (String.eqb_spec k k'); [congruence|reflexivity].
    + now rewrite IH.
Qed.

(** The three decimal digits of a number below 1000. *)
Definition digit_char (d : Z) : Ascii.ascii := Ascii.ascii_of_nat (48 + Z.to_nat d).

Definition three_digits (i : Z) : string :=
  String (digit_char (i / 100))
    (String (digit_char (i / 10 mod 10)) (String (digit_char (i mod 10)) "")).

(** The allocator counts: from the counter value [i - 1] it returns [T]
    followed by the three digits of [i], up to [T999]. *)
Lemma next_tag_digits (i : Z) :
  1 <= i <= 999 -> next_tag (i - 1) = ("T" ++ three_digits i, i).
Proof.
  intros Hi.
  assert (forallb (fun n =>
            let i := Z.of_nat n in
            String.eqb (fst (next_tag (i - 1))) ("T" ++ three_digits i)
            && (snd (next_tag (i - 1)) =? i)%Z)
            (seq 1 999) = true) as Hall by (vm_compute; reflexivity).
  rewrite forallb_forall in Hall.
  specialize (Hall (Z.to_nat i)). rewrite Z2Nat.id in Hall by lia.
  assert (In (Z.to_nat i) (seq 1 999)) as Hin by (apply in_seq; lia).
  apply Hall, andb_true_iff in Hin as [Ht Hc].
  apply String.eqb_eq in Ht. apply Z.eqb_eq in Hc.
  destruct (next_tag (i - 1)) as [t c]. simpl in *. now subst.
Qed.

Example first_tags :
  fst (tags_from 3 0) = ["T001"; "T002"; "T003"] /\
  fst (tags_from 3 997) = ["T998"; "T999"; "TOOO"] /\
  fst (tags_from 2 999) = ["TOOO"; "T001"].
Proof. repeat split. Qed.

(** C1: the table is keyed by tag, and [request] stores a live command
    under the tag that [_new_tag] returns at that moment, which becomes
    the tag of the command; the entries under other keys stay as they
    are, and the keys stay pairwise different.  The allocator does not
    look at the table: it returns [T001], [T002], ... up to [T999], then
    [TOOO], and starts again; up to 1000 tags allocated in a row are
    pairwise different and the next one is the first one again. *)
Theorem C1_tags_in_table (s : Link) (Hcur : 0 <= _current_tag s <= 999) :
  (forall o c cb prio,
     heap s !! o = Some c ->
     let t := fst (next_tag (_current_tag s)) in
     let s' := snd (request o cb prio s) in
     fst (_new_tag s) = Ok t /\
     dict_get t (cmd_queue s') = Some o /\
     (tag <$> heap s' !! o) = Some (Some t) /\
     (forall k, k <> t -> dict_get k (cmd_queue s') = dict_get k (cmd_queue s)) /\
     (NoDup (cmd_queue s).*1 -> NoDup (cmd_queue s').*1)) /\
  (forall i, 1 <= i <= 999 -> next_tag (i - 1) = ("T" ++ three_digits i, i)) /\
  next_tag 999 = ("TOOO", 0) /\
  (forall n, (n <= 1000)%nat ->
     exists ts s', new_tags n s = (Ok ts, s') /\ NoDup ts) /\
  fst (_new_tag (snd (new_tags 1000 s))) = fst (_new_tag s).
Proof.
  split; [|split; [|split; [|split]]].
  - intros o c cb prio Hc t s'. unfold s'. rewrite (request_eq o c cb prio s Hc).
    cbn [snd]. split; [now rewrite _new_tag_eq|].
    unfold registered. cbn [cmd_queue heap with_cmd_queue with_heap].
    split; [apply dict_get_set|]. split; [now rewrite lookup_insert_eq|].
    split; [intros k Hk; now apply dict_get_set_ne|apply dict_set_keys].
  - exact next_tag_digits.
  - reflexivity.
  - intros n Hn. rewrite new_tags_eq. eexists _, _. split; [reflexivity|].
    now apply tags_from_NoDup.
  - rewrite !_new_tag_eq. cbn [fst]. rewrite new_tags_counter.
    f_equal. now apply tags_from_period.
Qed.

(** A caller has passed one command to [request] on a fresh link. *)
Definition requested1 : Link :=
  exec (caller_request OtherCommand "MYLISTADD" (Some 0%nat) false) (init_link 1000 20).

Definition mylistadd : Command :=
  mkCommand OtherCommand "MYLISTADD" (Some "T001") None (Some (user_callback 0%nat)) None.

Example requested1_state :
  cmd_queue requested1 = [("T001", 0%nat)] /\
  heap requested1 !! 0%nat = Some mylistadd /\
  _queue requested1 = [] /\ wire requested1 = [] /\ _current_tag requested1 = 1.
Proof. vm_compute. repeat split; reflexivity. Qed.

Lemma C1_tags_in_table_witness :
  0 <= _current_tag requested1 <= 999 /\
  heap requested1 !! 0%nat = Some mylistadd /\
  dict_get "T002" (cmd_queue (snd (request 0%nat None true requested1))) = Some 0%nat /\
  dict_get "T001" (cmd_queue (snd (request 0%nat None true requested1))) = Some 0%nat /\
  (exists ts s', new_tags 1000 requested1 = (Ok ts, s') /\ NoDup ts) /\
  fst (_new_tag (snd (new_tags 1000 requested1))) = fst (_new_tag requested1).
Proof.
  assert (0 <= _current_tag requested1 <= 999) as Hcur by (vm_compute; split; discriminate).
  assert (heap requested1 !! 0%nat = Some mylistadd) as Hc by (vm_compute; reflexivity).
  destruct (C1_tags_in_table requested1 Hcur) as (Hreq & _ & _ & Halloc & Hperiod).
  destruct (Hreq 0%nat mylistadd None true Hc) as (_ & Hnew & _ & Hother & _).
  split; [exact Hcur|]. split; [exact Hc|].
  split; [exact Hnew|].
  split; [rewrite (Hother "T001") by discriminate; vm_compute; reflexivity|].
  split; [exact (Halloc 1000%nat (le_n _))|exact Hperiod].
Defined.

(** A caller passes [n] commands to [request], one after the other, and
    no reply arrives. *)
Fixpoint flood (n : nat) (s : Link) : Link :=
  match n with
  | O => s
  | S n' => exec (caller_request OtherCommand "FILE" None false) (flood n' s)
  end.

(** After 1000 requests without a reply the table still holds the first
    request under [T001], and the allocator returns [T001] again; the
    1001st request takes the place of the first one. *)
Lemma C1_counterexample :
  let s := flood 1000 (init_link 0 20) in
  dict_get "T001" (cmd_queue s) = Some 0%nat /\
  fst (_new_tag s) = Ok "T001" /\
  ~ (forall t, fst (_new_tag s) = Ok t -> t ∉ (cmd_queue s).*1) /\
  dict_get "T001" (cmd_queue (flood 1001 (init_link 0 20))) = Some 1000%nat.
Proof.
  intros s.
  assert (dict_get "T001" (cmd_queue s) = Some 0%nat) as Hget
    by (vm_compute; reflexivity).
  assert (fst (_new_tag s) = Ok "T001") as Htag
    by (vm_compute; reflexivity).
  split; [exact Hget|]. split; [exact Htag|]. split.
  - intros H. apply (H "T001" Htag).
    apply list_elem_of_fmap. exists ("T001", 0%nat). split; [reflexivity|].
    now apply dict_get_elem.
  - vm_compute. reflexivity.
Qed.

(** ** The tags [_new_tag] hands out *)

(** X1: with the counter between 0 and 999, [_new_tag] returns a tag of
    four characters that starts with [T], hence never the empty tag that
    the expiry sweep skips; it leaves the counter between 0 and 999 and
    touches nothing else. *)
Theorem new_tag_shape (s : Link) (Hcur : 0 <= _current_tag s <= 999) :
  exists t cur',
    _new_tag s = (Ok t, with_current_tag cur' s) /\
    String.length t = 4%nat /\
    String.prefix "T" t = true /\
    t <> "" /\
    0 <= cur' <= 999.
Proof.
  exists (fst (next_tag (_current_tag s))), (snd (next_tag (_current_tag s))).
  split; [apply _new_tag_eq|].
  assert (forallb (fun i =>
            let t := fst (next_tag (Z.of_nat i)) in
            Nat.eqb (String.length t) 4
            && String.prefix "T" t)
            (seq 0 1000) = true) as Hall by (vm_compute; reflexivity).
  rewrite forallb_forall in Hall.
  specialize (Hall (Z.to_nat (_current_tag s))).
  rewrite Z2Nat.id in Hall by lia.
  assert (In (Z.to_nat (_current_tag s)) (seq 0 1000)) as Hin by (apply in_seq; lia).
  apply Hall, andb_true_iff in Hin as [Hlen Hget].
  apply Nat.eqb_eq in Hlen.
  split; [exact Hlen|]. split; [exact Hget|]. split.
  - intros Hempty. rewrite Hempty in Hlen. discriminate.
  - now apply next_tag_range.
Qed.

Lemma new_tag_shape_witness :
  0 <= _current_tag (init_link 0 20) <= 999 /\
  exists t cur',
    _new_tag (init_link 0 20) = (Ok t, with_current_tag cur' (init_link 0 20)) /\
    String.length t = 4%nat /\
    String.prefix "T" t = true /\
    t <> "" /\
    0 <= cur' <= 999.
Proof.
  split; [vm_compute; split; discriminate|].
  apply (new_tag_shape (init_link 0 20)). vm_compute. split; discriminate.
Defined.

(** ** Pacing ([_do_delay]) *)








(** X2: [_do_delay] never sleeps, whatever the state of the link.  It
    returns normally exactly when no ban is on record and either more
    than 120 seconds have passed since the last datagram or at least the
    target delay has passed; in every other state it raises
    [AttributeError] at a log statement, before [sleep], and the link is
    as it was.  When it returns, only the counter can have changed (it is
    0 after more than 120 idle seconds). *)
Theorem do_delay_never_sleeps (s : Link) :
  let age := (clock s - _last_packet s)%Q in
  slept (snd (_do_delay s)) = slept s /\
  clock (snd (_do_delay s)) = clock s /\
  (fst (_do_delay s) = Ok tt <->
   (_banned s <= 0)%Z /\ ((120 < age)%Q \/ (target_delay s - age <= 0)%Q)) /\
  (fst (_do_delay s) <> Ok tt -> _do_delay s = (Raise AttributeError, s)) /\
  (fst (_do_delay s) = Ok tt ->
   snd (_do_delay s) = s \/ snd (_do_delay s) = with_counter 0 s).
Proof.
  intros age. rewrite _do_delay_eq. fold age.
  destruct (_banned s >? 0)%Z eqn:Hb.
  { cbn [fst snd]. split; [reflexivity|]. split; [reflexivity|].
    split; [split; [discriminate|intros [H _]; lia]|].
    split; [reflexivity|discriminate]. }
  cbn zeta. destruct (Qgt_bool age 120) eqn:Hage.
  { apply Qgt_bool_true in Hage. cbn [fst snd].
    split; [reflexivity|]. split; [reflexivity|].
    split; [split; [intros _; split; [lia|now left]|reflexivity]|].
    split; [intros H; now contradiction H|intros _; now right]. }
  apply Qgt_bool_false in Hage.
  destruct (Qgt_bool (target_delay s - age) 0) eqn:Hd; cbn [fst snd].
  - apply Qgt_bool_true in Hd.
    split; [reflexivity|]. split; [reflexivity|].
    split; [split; [discriminate|intros (_ & [H|H]); exfalso; lra]|].
    split; [reflexivity|discriminate].
  - apply Qgt_bool_false in Hd.
    split; [reflexivity|]. split; [reflexivity|].
    split; [split; [intros _; split; [lia|now right]|reflexivity]|].
    split; [intros H; now contradiction H|intros _; now left].
Qed.

(** ** Ban backoff *)

Lemma ban_delay_1 : ban_delay 1 = 48 * 3600.
Proof. reflexivity. Qed.

Lemma ban_delay_pow (n : Z) : 2 <= n -> ban_delay n = 7200 ^ n.
Proof.
  intros Hn. unfold ban_delay. change (2 * 3600) with 7200.
  change (48 * 3600) with 172800. apply Z.max_l.
  transitivity (7200 ^ 2); [vm_compute; discriminate|].
  apply Z.pow_le_mono_r; lia.
Qed.

(** The delay grows strictly with the ban count. *)
Lemma ban_delay_escalates (n m : Z) : 1 <= n -> n < m -> ban_delay n < ban_delay m.
Proof.
  intros Hn Hm. rewrite (ban_delay_pow m) by lia.
  destruct (Z.eq_dec n 1) as [->|Hne].
  - rewrite ban_delay_1. apply Z.lt_le_trans with (7200 ^ 2); [reflexivity|].
    apply Z.pow_le_mono_r; lia.
  - rewrite ban_delay_pow by lia. apply Z.pow_lt_mono_r; lia.
Qed.

(** From the second ban on, the delay is above 48 hours. *)
Lemma ban_delay_above_cap (n : Z) : 2 <= n -> 48 * 3600 < ban_delay n.
Proof.
  intros Hn. rewrite ban_delay_pow by assumption.
  apply Z.lt_le_trans with (7200 ^ 2); [reflexivity|].
  apply Z.pow_le_mono_r; lia.
Qed.

(** ** Requests and logins *)

(** X6: [request] for a live command registers it and then ends with
    [AttributeError] at its log statement, whatever the command is and
    whether or not it is registered already: the command has got the
    next tag and the callback and lost its send stamp, and the table
    holds it under the new tag; the deque is as it was, nothing was sent
    and no time has passed. *)
Theorem request_registers_then_raises (o : oid) (c : Command) (cb : option handler)
    (prio : bool) (s : Link) (Hc : heap s !! o = Some c) :
  let t := fst (next_tag (_current_tag s)) in
  let s' := snd (request o cb prio s) in
  fst (request o cb prio s) = Raise AttributeError /\
  s' = registered o c cb s /\
  _queue s' = _queue s /\ wire s' = wire s /\
  clock s' = clock s /\ slept s' = slept s /\
  _counter s' = _counter s /\ _last_packet s' = _last_packet s /\
  dict_get t (cmd_queue s') = Some o /\
  heap s' !! o = Some (set_tag t (set_callback cb (set_started None c))).
Proof.
  intros t s'. unfold s'. rewrite (request_eq o c cb prio s Hc). cbn [fst snd].
  split; [reflexivity|]. split; [reflexivity|].
  unfold registered. cbn.
  repeat (split; [reflexivity|]).
  split; [apply dict_get_set|apply lookup_insert_eq].
Qed.

Lemma request_registers_then_raises_witness :
  heap requested1 !! 0%nat = Some mylistadd /\
  fst (request 0%nat (Some (user_callback 7%nat)) true requested1) = Raise AttributeError /\
  _queue (snd (request 0%nat (Some (user_callback 7%nat)) true requested1))
    = _queue requested1 /\
  wire (snd (request 0%nat (Some (user_callback 7%nat)) true requested1))
    = wire requested1.
Proof.
  assert (heap requested1 !! 0%nat = Some mylistadd) as Hc by (vm_compute; reflexivity).
  destruct (request_registers_then_raises 0%nat mylistadd (Some (user_callback 7%nat))
              true requested1 Hc) as (Hr & _ & Hq & Hw & _).
  split; [exact Hc|]. split; [exact Hr|]. split; [exact Hq|exact Hw].
Defined.

(** C5: on a fresh link a caller hands an [AUTH] command to [request]:
    the call ends with [AttributeError] at its log statement, before it
    reaches [_send_command]; the command is in the table and not in the
    queue, and nothing was transmitted.  The same holds for the login
    that [reauthenticate] starts, which leaves [_authenticating] set; a
    further call returns at once and starts no login. *)
Theorem C5_auth_request_not_sent :
  let r := caller_request AuthCommand "AUTH" (Some 0%nat) false (init_link 1000 20) in
  let l := reauthenticate (init_link 1000 20) in
  fst r = Raise AttributeError /\
  wire (snd r) = [] /\ _queue (snd r) = [] /\
  cmd_queue (snd r) = [("T001", 0%nat)] /\
  (command <$> heap (snd r) !! 0%nat) = Some "AUTH" /\
  (started <$> heap (snd r) !! 0%nat) = Some None /\
  fst l = Raise AttributeError /\
  wire (snd l) = [] /\ _queue (snd l) = [] /\
  cmd_queue (snd l) = [("T001", 0%nat)] /\
  (cls <$> heap (snd l) !! 0%nat) = Some AuthCommand /\
  _authenticating (snd l) = true /\ _authed (snd l) = false /\
  _reauthenticate (snd l) = (Ok tt, snd l).
Proof. vm_compute. repeat split; reflexivity. Qed.

(** X7: with no login under way or done, [_reauthenticate] sets
    [_authenticating], creates an [AuthCommand] and hands it to
    [request], which registers it and raises: the call ends with
    [AttributeError], nothing was sent or queued, and the flag stays
    set.  From then on [_reauthenticate] returns at once and
    [reauthenticate] only clears the session: no second login is ever
    started. *)
Theorem login_attempt_fails_for_good (s : Link)
    (Hflags : _authenticating s || _authed s = false) :
  let s' := snd (_reauthenticate s) in
  fst (_reauthenticate s) = Raise AttributeError /\
  s' = registered (next_oid s) auth_command (Some auth_handler) (login_started s) /\
  wire s' = wire s /\ _queue s' = _queue s /\
  _authenticating s' = true /\ _authed s' = false /\
  dict_get (fst (next_tag (_current_tag s))) (cmd_queue s') = Some (next_oid s) /\
  _reauthenticate s' = (Ok tt, s') /\
  reauthenticate s' = (Ok tt, with_session SessNone (with_authed false s')).
Proof.
  intros s'. unfold s'. rewrite (_reauthenticate_eq s), Hflags. cbn [fst snd].
  apply orb_false_elim in Hflags as [_ Hauthed].
  split; [reflexivity|]. split; [reflexivity|].
  split; [reflexivity|]. split; [reflexivity|]. split; [reflexivity|].
  split; [exact Hauthed|]. split; [apply dict_get_set|].
  split; [now rewrite _reauthenticate_eq|].
  now rewrite reauthenticate_eq, _reauthenticate_eq.
Qed.

Lemma login_attempt_fails_for_good_witness :
  _authenticating (init_link 1000 20) || _authed (init_link 1000 20) = false /\
  fst (_reauthenticate (init_link 1000 20)) = Raise AttributeError /\
  wire (snd (_reauthenticate (init_link 1000 20))) = wire (init_link 1000 20) /\
  _reauthenticate (snd (_reauthenticate (init_link 1000 20)))
    = (Ok tt, snd (_reauthenticate (init_link 1000 20))).
Proof.
  assert (_authenticating (init_link 1000 20) || _authed (init_link 1000 20) = false)
    as Hf by reflexivity.
  destruct (login_attempt_fails_for_good (init_link 1000 20) Hf)
    as (Hr & _ & Hw & _ & _ & _ & _ & Hagain & _).
  split; [exact Hf|]. split; [exact Hr|]. split; [exact Hw|exact Hagain].
Defined.

(** ** Sending *)

Lemma _do_delay_cases (s : Link) :
  snd (_do_delay s) = s \/ snd (_do_delay s) = with_counter 0 s.
Proof.
  rewrite _do_delay_eq. destruct (_banned s >? 0)%Z; [now left|]. cbn zeta.
  destruct (Qgt_bool (clock s - _last_packet s) 120); [now right|].
  destruct (Qgt_bool _ 0); now left.
Qed.

(** [_send_command] leaves the wire and the record of sleeps alone. *)
Lemma _send_command_frame (o : oid) (s : Link) :
  wire (snd (_send_command o s)) = wire s /\
  slept (snd (_send_command o s)) = slept s /\
  clock (snd (_send_command o s)) = clock s.
Proof.
  assert (wire (snd (_do_delay s)) = wire s /\ slept (snd (_do_delay s)) = slept s
          /\ clock (snd (_do_delay s)) = clock s /\ heap (snd (_do_delay s)) = heap s)
    as (Hw & Hs & Hk & Hh).
  { destruct (_do_delay_cases s) as [-> | ->]; now repeat split. }
  destruct (heap s !! o) as [c|] eqn:Hc.
  - unfold _send_command. rewrite (_send_command_body_eq _ o c s Hc).
    destruct (_do_delay s) as [[[]|e] s1]; cbn [snd] in *;
      [|now repeat split].
    destruct (sendable s1 c); cbn [snd]; [|now repeat split].
    unfold stamped. cbn. now repeat split.
  - unfold _send_command. rewrite (_send_command_body_dangling _ o s Hc).
    destruct (_do_delay s) as [[[]|e] s1]; cbn [snd] in *; now repeat split.
Qed.

(** X3: [_send_command] never passes a datagram to [sendto] and never
    returns normally: for every state and every command it ends with an
    exception, with the wire as it was and nothing slept.  Where the
    pacing and the session test let the command pass, the exception is
    the [AttributeError] of the log statement that precedes [sendto],
    and by then the command is authorized and stamped and [_counter] and
    [_last_packet] count a datagram that never left. *)
Theorem send_command_never_sends (o : oid) (s : Link) :
  (exists e, fst (_send_command o s) = Raise e) /\
  wire (snd (_send_command o s)) = wire s /\
  slept (snd (_send_command o s)) = slept s /\
  (forall c s1,
     heap s !! o = Some c -> _do_delay s = (Ok tt, s1) -> sendable s1 c = true ->
     _send_command o s = (Raise AttributeError, stamped o c s1) /\
     _counter (stamped o c s1) = _counter s1 + 1 /\
     _last_packet (stamped o c s1) = clock s) /\
  (forall c s1,
     heap s !! o = Some c -> _do_delay s = (Ok tt, s1) -> sendable s1 c = false ->
     _send_command o s = (Raise AniDBMustAuthError, s1)).
Proof.
  destruct (_send_command_frame o s) as (Hw & Hs & _).
  split; [apply outcome_of_send|]. split; [exact Hw|]. split; [exact Hs|]. split.
  - intros c s1 Hc Hd Hok. unfold _send_command.
    rewrite (_send_command_body_eq _ o c s Hc), Hd, Hok.
    split; [reflexivity|]. split; [reflexivity|].
    cbn. pose proof (_do_delay_cases s) as Hcases. rewrite Hd in Hcases.
    cbn [snd] in Hcases. now destruct Hcases as [-> | ->].
  - intros c s1 Hc Hd Hno. unfold _send_command.
    now rewrite (_send_command_body_eq _ o c s Hc), Hd, Hno.
Qed.

(** A login command handed straight to [_send_command] on the link of
    [requested1]: it passes the pacing (the link never sent) and the
    session test, is stamped, and stops before [sendto]. *)
Example send_command_stamps :
  let s := snd (new_object auth_command requested1) in
  let r := _send_command 1%nat s in
  fst r = Raise AttributeError /\
  wire (snd r) = [] /\
  _counter (snd r) = 1 /\ _last_packet (snd r) = 1000%Q /\
  (started <$> heap (snd r) !! 1%nat) = Some (Some 1000%Q).
Proof. vm_compute. repeat split; reflexivity. Qed.

(** ** Compressed datagrams *)

Lemma bytes_never_equal_marker (b : list Byte.byte) : py_eq (PyBytes b) marker = false.
Proof. reflexivity. Qed.

Lemma unpack_eq
    (decompress : list Byte.byte -> option (list Byte.byte))
    (ResponseResolver : list Byte.byte -> option Response)
    (data : list Byte.byte) (s : Link) :
  unpack decompress ResponseResolver data s = (Ok (ResponseResolver data), s).
Proof.
  unfold unpack, bind, ret. now rewrite bytes_never_equal_marker.
Qed.

(** C9: whatever the datagram starts with, also the two zero bytes, the
    listener hands it to the parser as it is; the decompressor is never
    applied, because the received [bytes] are compared with a [str]
    marker. *)
Theorem C9_datagram_parsed_as_received
    (decompress : list Byte.byte -> option (list Byte.byte))
    (ResponseResolver : list Byte.byte -> option Response)
    (payload : list Byte.byte) (s : Link) :
  let data := Byte.x00 :: Byte.x00 :: payload in
  unpack decompress ResponseResolver data s = (Ok (ResponseResolver data), s).
Proof. intros data. apply unpack_eq. Qed.

(** A datagram with the marker: the parser sees the two zero bytes, not
    the payload that follows them. *)
Example marked_datagram_not_inflated :
  let payload := datagram "T001 220 FILE" in
  let data := Byte.x00 :: Byte.x00 :: payload in
  fst (unpack demo_decompress demo_resolver data (init_link 0 20))
    = Ok (demo_resolver data) /\
  demo_resolver data <> demo_resolver payload.
Proof. split; [reflexivity | vm_compute; discriminate]. Qed.

(** ** Replies *)

(** C6: the failing input.  A caller has registered one command (tag
    [T001]) on a fresh link, and the reply ["T001 555 BANNED"] arrives.
    The round of the listener ends with [AttributeError] at its first log
    statement, before the datagram is parsed: the ban counter is still
    0, the command is still in the table and not in the queue, and the
    exception ends the listener thread.  [set_banned], which the ban
    branch calls, fails in the same way before it changes anything. *)
Theorem C6_ban_reply_ends_listener :
  let r := on_data demo_decompress demo_resolver (datagram "T001 555 BANNED") requested1 in
  demo_resolver (datagram "T001 555 BANNED")
    = Some (mkResponse "T001" "555" None [] "BANNED") /\
  dict_get "T001" (cmd_queue requested1) = Some 0%nat /\
  fst r = Raise AttributeError /\
  listener_after (fst r) = ListenerCrashed AttributeError /\
  snd r = requested1 /\
  _banned (snd r) = 0 /\
  cmd_queue (snd r) = [("T001", 0%nat)] /\
  _queue (snd r) = [] /\
  set_banned "BANNED" requested1 = (Raise AttributeError, requested1).
Proof. vm_compute. repeat split; reflexivity. Qed.




(** X10: a round of the listener ends at its first log statement for
    every datagram and in every state of the link: it raises
    [AttributeError] before the datagram is parsed and before the table
    is looked at, the link is as it was, no callback is called, and the
    exception ends the listener thread. *)
Theorem listener_round_ends_at_log
    (decompress : list Byte.byte -> option (list Byte.byte))
    (ResponseResolver : list Byte.byte -> option Response)
    (data : list Byte.byte) (s : Link) :
  let r := on_data decompress ResponseResolver data s in
  r = (Raise AttributeError, s) /\
  listener_after (fst r) = ListenerCrashed AttributeError /\
  cmd_queue (snd r) = cmd_queue s /\
  _queue (snd r) = _queue s /\
  _session (snd r) = _session s /\
  _authed (snd r) = _authed s /\
  calls (snd r) = calls s.
Proof. intros r. unfold r. rewrite on_data_eq. now repeat split. Qed.

(** The login reply that would set the session: the round ends before
    it is read, and the login command stays in the table. *)
Example login_reply_not_read :
  let s := snd (reauthenticate (init_link 1000 20)) in
  let r := on_data demo_decompress demo_resolver (datagram "T001 200 abcde LOGIN ACCEPTED") s in
  cmd_queue s = [("T001", 0%nat)] /\
  fst r = Raise AttributeError /\
  cmd_queue (snd r) = [("T001", 0%nat)] /\
  _session (snd r) = SessNone /\ _authed (snd r) = false.
Proof. vm_compute. repeat split; reflexivity. Qed.

(** ** [stop()] before authentication *)

(** C10: on a link whose [_authed] flag is not set, [stop()] returns
    without an exception and leaves the whole state as it was: no logout
    request is created, the queue and the table are unchanged, and both
    threads stay where they are. *)
Theorem C10_stop_unauthenticated (sys : System) (H : _authed (link sys) = false) :
  stop (link sys) = (Ok tt, link sys) /\ system_stop sys = sys.
Proof.
  assert (stop (link sys) = (Ok tt, link sys)) as E.
  { unfold stop, bind, get. now rewrite H. }
  split; [exact E|]. unfold system_stop. rewrite E. now destruct sys.
Qed.

Lemma C10_stop_unauthenticated_witness :
  _authed (link (fresh_system 0 20)) = false /\
  stop (link (fresh_system 0 20)) = (Ok tt, link (fresh_system 0 20)) /\
  system_stop (fresh_system 0 20) = fresh_system 0 20.
Proof.
  split; [reflexivity|].
  apply (C10_stop_unauthenticated (fresh_system 0 20)). reflexivity.
Defined.

(** ** [stop()] in general *)

(** X18: [stop()] never creates a logout request.  With [_authed] unset
    it returns at once; with [_authed] set it ends with [AttributeError]
    at its log statement, before the [LogoutCommand] is built.  Either
    way the link is as it was: no object is created, and the table, the
    queue and the wire are unchanged. *)
Theorem stop_never_logs_out (s : Link) :
  snd (stop s) = s /\
  next_oid (snd (stop s)) = next_oid s /\
  (fst (stop s) = Ok tt <-> _authed s = false) /\
  (fst (stop s) = Raise AttributeError <-> _authed s = true).
Proof.
  rewrite stop_eq. destruct (_authed s); cbn [fst snd];
    (split; [reflexivity|]); (split; [reflexivity|]); split; split;
    first [reflexivity | discriminate].
Qed.

(** ** The outbound queue *)




(** The two classes of waiting requests, oldest first. *)
Record classes := mkClasses {
  waiting_normal : list oid;
  waiting_prio : list oid
}.



(** The discipline of the deque: priority requests first, the newest
    priority request first, and the oldest normal request first. *)
Definition lifo_prio_dequeue (w : classes) : option (oid * classes) :=
  match rev (waiting_prio w), waiting_normal w with
  | p :: ps, _ => Some (p, mkClasses (waiting_normal w) (rev ps))
  | [], n :: ns => Some (n, mkClasses ns [])
  | [], [] => None
  end.


(** The deque that holds the waiting requests [w]: normal requests from
    the left, newest first, then priority requests, oldest first. *)
Definition deque_of (w : classes) : list oid :=
  rev (waiting_normal w) ++ waiting_prio w.


Lemma deque_of_pop (w : classes) :
  deque_pop (deque_of w)
  = match lifo_prio_dequeue w with
    | Some (o, w') => Some (o, deque_of w')
    | None => None
    end.
Proof.
  destruct w as [ns ps]. unfold deque_pop, deque_of, lifo_prio_dequeue; simpl.
  rewrite List.rev_app_distr, List.rev_involutive.
  destruct (rev ps) as [|p r] eqn:E; simpl.
  - destruct ns as [|n ns']; simpl; [reflexivity|]. now rewrite List.app_nil_r.
  - now rewrite List.rev_app_distr.
Qed.


Lemma run_dequeue_empty (s : Link) :
  _queue s = [] -> run_dequeue s = (Ok None, after_sleep (2 # 10) s).
Proof.
  intros Hq. unfold run_dequeue, bind at 1, get at 1. rewrite Hq. reflexivity.
Qed.

Lemma run_dequeue_pop (s : Link) (o : oid) (q' : list oid) :
  deque_pop (_queue s) = Some (o, q') ->
  run_dequeue s = (Ok (Some o), with_queue q' s).
Proof.
  intros Hpop. unfold run_dequeue, bind at 1, get at 1.
  destruct (_queue s) as [|x q] eqn:Hq; [discriminate|].
  assert ((Z.of_nat (length (x :: q)) <? 1)%Z = false) as ->
    by (apply Z.ltb_ge; cbn [length]; lia).
  now rewrite Hpop.
Qed.

Lemma deque_pop_none (q : list oid) : deque_pop q = None -> q = [].
Proof.
  unfold deque_pop. destruct (rev q) eqn:Hr; [|discriminate]. intros _.
  apply (f_equal (@rev _)) in Hr. now rewrite rev_involutive in Hr.
Qed.

(** The pop of a round of the sender comes before its log statement. *)
Lemma run_poll_eq (s : Link) :
  run_poll s =
    match deque_pop (_queue s) with
    | None => (Ok SenderPolling, after_sleep (2 # 10) s)
    | Some (o, q') => (Raise AttributeError, with_queue q' s)
    end.
Proof.
  unfold run_poll, bind at 1.
  destruct (deque_pop (_queue s)) as [[o q']|] eqn:Hpop.
  - now rewrite (run_dequeue_pop s o q' Hpop).
  - now rewrite (run_dequeue_empty s (deque_pop_none _ Hpop)).
Qed.


(** Read off the discipline: a normal request leaves only when no
    priority request waits, and then it is the oldest one. *)
Lemma normal_leaves_last (w : classes) (o : oid) (q' : list oid) :
  waiting_prio w = [] ->
  deque_pop (deque_of w) = Some (o, q') ->
  exists ns, waiting_normal w = o :: ns /\ q' = deque_of (mkClasses ns []).
Proof.
  intros Hp. rewrite deque_of_pop. unfold lifo_prio_dequeue. rewrite Hp. simpl.
  intros H. destruct (waiting_normal w) as [|n ns]; [discriminate|].
  injection H as <- <-. now exists ns.
Qed.

Lemma prio_leaves_first (w : classes) (p : oid) (ps : list oid) :
  waiting_prio w = (ps ++ [p])%list ->
  deque_pop (deque_of w) = Some (p, deque_of (mkClasses (waiting_normal w) ps)).
Proof.
  intros H. rewrite deque_of_pop. unfold lifo_prio_dequeue.
  rewrite H, List.rev_app_distr. simpl. now rewrite List.rev_involutive.
Qed.




(** ** The expiry sweep

    [_handle_timeouts] has no log statement of its own.  The states below
    are inputs of the sweep: tables with commands that carry a send
    stamp. *)

(** A login that was stamped at second 1000, and a command that waits. *)
Definition auth_sent : Command :=
  mkCommand AuthCommand "AUTH" (Some "T002") (Some 1000%Q) (Some auth_handler)
    (Some SessNone).




(** The command [T001], stamped at second 1002 under the session key
    [abcde]. *)
Definition run4_command : Command :=
  mkCommand OtherCommand "MYLISTADD" (Some "T001") (Some 1002%Q)
    (Some (user_callback 0%nat)) (Some (SessKey "abcde")).

(** A link that is logged in and holds one command in its table, stamped
    at second 1002, looked at when the clock shows [now]. *)
Definition logged_in (now : Q) : Link :=
  {| _queue := []; _last_packet := 1002%Q; _counter := 2; _banned := 0;
     _current_tag := 2; _stop := false; _authed := true;
     _authenticating := false; _session := SessKey "abcde";
     cmd_queue := [("T001", 0%nat)];
     sock := true; timeout := 20%Q;
     heap := <[1%nat := auth_sent]> (<[0%nat := run4_command]> ∅);
     next_oid := 2%nat; clock := now;
     wire := [(1%nat, auth_sent); (0%nat, run4_command)]; slept := [2%Q]; calls := [] |}.

(** The moment of the stamp, and 100 seconds later. *)
Definition run4 : Link := logged_in 1002.
Definition run4_late : Link := logged_in 1102.

Lemma dict_pop_found (k : string) (s : Link) (o : oid) :
  dict_get k (cmd_queue s) = Some o ->
  dict_pop k s = (Ok o, with_cmd_queue (dict_del k (cmd_queue s)) s).
Proof. intros H. unfold dict_pop. now rewrite H. Qed.

Lemma dict_pop_missing (k : string) (s : Link) :
  dict_get k (cmd_queue s) = None -> dict_pop k s = (Raise KeyError, s).
Proof. intros H. unfold dict_pop. now rewrite H. Qed.

(** ** The sweep for requests without a reply *)

(** The test of the first loop of [_handle_timeouts] for one entry of the
    table: the key is not empty, the command was sent, and more than
    [timeout] seconds ago. *)
Definition expired (s : Link) (p : string * oid) : bool :=
  negb (String.eqb p.1 "")
  && match heap s !! p.2 with
     | Some c => started_truthy c
                 && Qgt_bool (clock s - default 0%Q (started c))%Q (timeout s)
     | None => false
     end.

(** The value of the loop variable [cmd] after the first loop. *)
Definition scan_cmd (items : list (string * oid)) (cmd : option oid) : option oid :=
  match last items with
  | Some p => Some p.2
  | None => cmd
  end.

Lemma scan_cmd_cons p items cmd : scan_cmd (p :: items) cmd = scan_cmd items (Some p.2).
Proof.
  unfold scan_cmd. destruct items as [|q items]; [reflexivity|].
  change (last (p :: q :: items)) with (last (q :: items)).
  destruct (last (q :: items)) eqn:Hlast; [reflexivity|].
  apply last_None in Hlast. discriminate.
Qed.

Lemma timeouts_scan_eq (s : Link) items cmd willpop :
  (forall k o, (k, o) ∈ items -> is_Some (heap s !! o)) ->
  timeouts_scan items cmd willpop s
    = (Ok (scan_cmd items cmd,
           (willpop ++ ((fun p => heap s !! p.2 ≫= tag) <$> List.filter (expired s) items))%list),
       s).
Proof.
  revert cmd willpop. induction items as [|[t o] items IH]; intros cmd willpop Hlive.
  - simpl. now rewrite app_nil_r.
  - assert (forall k o', (k, o') ∈ items -> is_Some (heap s !! o')) as Hrest.
    { intros k o' Hin. apply (Hlive k). now apply list_elem_of_further. }
    destruct (Hlive t o) as [c Hc]; [apply list_elem_of_here|].
    rewrite scan_cmd_cons. cbn [timeouts_scan List.filter].
    unfold expired at 1. cbn [fst snd].
    destruct (String.eqb t "").
    { cbn [negb andb]. now apply IH. }
    unfold bind at 1, load at 1. rewrite Hc. cbn [negb andb].
    destruct (started_truthy c); [|now apply IH].
    unfold bind at 1, time at 1, bind at 1, get at 1. cbn [andb].
    destruct (Qgt_bool _ _).
    + rewrite IH by exact Hrest. cbn [fmap list_fmap snd]. rewrite Hc.
      cbn [mbind option_bind]. now rewrite <- app_assoc.
    + now apply IH.
Qed.

(** The table after the keys of [ks] were popped one after the other. *)
Definition dels (ks : list (string * oid)) (d : list (string * oid)) : list (string * oid) :=
  fold_left (fun d p => dict_del p.1 d) ks d.

Lemma dict_get_del_ne {V} (k k' : string) (d : list (string * V)) :
  k <> k' -> dict_get k' (dict_del k d) = dict_get k' d.
Proof.
  intros Hne. induction d as [|[k0 v0] d IH]; simpl; [reflexivity|].
  destruct (String.eqb_spec k0 k) as [->|Hk].
  - destruct (String.eqb_spec k k'); [contradiction|reflexivity].
  - simpl. now rewrite IH.
Qed.

Lemma dict_get_of_elem {V} (k : string) (v : V) d :
  NoDup d.*1 -> (k, v) ∈ d -> dict_get k d = Some v.
Proof.
  induction d as [|[k0 v0] d IH]; simpl; intros Hnd Hin.
  - now apply elem_of_nil in Hin.
  - apply NoDup_cons in Hnd as [Hk0 Hnd].
    apply elem_of_cons in Hin as [Heq|Hin].
    + injection Heq as -> ->. now rewrite String.eqb_refl.
    + destruct (String.eqb_spec k0 k) as [->|Hne]; [|now apply IH].
      exfalso. apply Hk0. apply list_elem_of_fmap. now exists (k, v).
Qed.

Lemma filter_keys_NoDup {V} (f : string * V -> bool) (d : list (string * V)) :
  NoDup d.*1 -> NoDup (List.filter f d).*1.
Proof.
  induction d as [|p d IH]; simpl; intros Hnd; [exact Hnd|].
  apply NoDup_cons in Hnd as [Hp Hnd].
  destruct (f p); [|now apply IH]. simpl. apply NoDup_cons. split; [|now apply IH].
  intros Hin. apply Hp. apply list_elem_of_fmap in Hin as [q [Hq Hin]].
  apply list_elem_of_fmap. exists q. split; [exact Hq|].
  apply list_elem_of_In. apply list_elem_of_In in Hin.
  now apply filter_In in Hin as [Hin _].
Qed.

(** Popping the entries a test selects leaves the entries it rejects. *)
Lemma dels_filter (f : string * oid -> bool) (d : list (string * oid)) :
  NoDup d.*1 ->
  dels (List.filter f d) d = List.filter (fun p => negb (f p)) d.
Proof.
  unfold dels.
  assert (forall (pre : list (string * oid)),
            NoDup ((pre ++ d)%list).*1 ->
            fold_left (fun d p => dict_del p.1 d) (List.filter f d) (pre ++ d)%list
            = (pre ++ List.filter (fun p => negb (f p)) d)%list) as Hgen.
  { induction d as [|[k v] d IH]; intros pre Hnd; [reflexivity|].
    simpl. destruct (f (k, v)) eqn:Hf; simpl.
    - assert (dict_del k (pre ++ (k, v) :: d)%list = (pre ++ d)%list) as ->.
      { rewrite fmap_app in Hnd. apply NoDup_app in Hnd as (_ & Hdis & _).
        clear IH. induction pre as [|[k0 v0] pre IHp]; simpl.
        - now rewrite String.eqb_refl.
        - destruct (String.eqb_spec k0 k) as [->|Hne].
          + exfalso. apply (Hdis k); [apply list_elem_of_here|].
            simpl. apply list_elem_of_here.
          + f_equal. apply IHp. intros x Hx. apply Hdis.
            simpl. now apply list_elem_of_further. }
      apply IH. rewrite fmap_app in *. simpl in Hnd.
      apply NoDup_app in Hnd as (Hpre & Hdis & Hd).
      apply NoDup_cons in Hd as [_ Hd].
      apply NoDup_app. split; [exact Hpre|]. split; [|exact Hd].
      intros x Hx Hin. apply (Hdis x Hx). now apply list_elem_of_further.
    - specialize (IH (pre ++ [(k, v)])%list).
      rewrite <- !app_assoc in IH. simpl in IH. apply IH. exact Hnd. }
  intros Hnd. apply (Hgen []). exact Hnd.
Qed.

Lemma timeouts_pop_eq (ks : list (string * oid)) (cmd : option oid) (s : Link) :
  (ks <> [] -> exists o c, cmd = Some o /\ heap s !! o = Some c /\ cls c <> AuthCommand) ->
  (forall p, p ∈ ks ->
     dict_get p.1 (cmd_queue s) = Some p.2 /\
     exists c, heap s !! p.2 = Some c /\ cls c <> AuthCommand) ->
  NoDup ks.*1 ->
  timeouts_pop ((fun p => Some p.1) <$> ks) cmd s
    = (Ok tt,
       with_calls (calls s ++ ((fun p => CallTimeout p.2) <$> ks))
         (with_cmd_queue (dels ks (cmd_queue s)) s)).
Proof.
  revert cmd s. induction ks as [|[k o] ks IH]; intros cmd s Hcmd Hks Hnd.
  - simpl. unfold ret. f_equal. destruct s. simpl. now rewrite app_nil_r.
  - destruct Hcmd as (o0 & c0 & -> & Hc0 & Hcls0); [discriminate|].
    destruct (Hks (k, o)) as [Hget (c & Hc & Hcls)]; [apply list_elem_of_here|].
    simpl in Hget, Hc. apply NoDup_cons in Hnd as [Hk Hnd].
    cbn [fmap list_fmap timeouts_pop fst].
    unfold bind at 1, ret at 1. unfold bind at 1, load at 1. rewrite Hc0.
    unfold bind at 1.
    assert ((match cls c0 with AuthCommand => reauthenticate | _ => ret tt end) s
            = (Ok tt, s)) as ->.
    { destruct (cls c0); [contradiction|reflexivity|reflexivity]. }
    unfold bind at 1. rewrite (dict_pop_found _ _ _ Hget).
    unfold bind at 1, handle_timeout, modify.
    rewrite IH.
    + f_equal. unfold dels. simpl. unfold with_calls, with_cmd_queue. simpl.
      now rewrite <- app_assoc.
    + intros _. exists o, c. now repeat split.
    + intros p Hp. destruct (Hks p) as [Hg Hl]; [now apply list_elem_of_further|].
      split; [|exact Hl]. simpl. rewrite dict_get_del_ne; [exact Hg|].
      intros ->. apply Hk. apply list_elem_of_fmap. now exists p.
    + exact Hnd.
Qed.

(** X14: when the keys of the table are pairwise different, every entry
    holds a live command that carries its key as tag and is not an
    [AuthCommand], the sweep returns normally, removes exactly the
    entries that were sent more than [timeout] seconds ago, and calls the
    timeout handler of each of them once, in the order of the table;
    entries not yet sent or sent more recently stay, in their order, and
    nothing else changes. *)
Theorem handle_timeouts_sweeps (s : Link)
    (Hkeys : NoDup (cmd_queue s).*1)
    (Hwf : forall k o, (k, o) ∈ cmd_queue s ->
             exists c, heap s !! o = Some c /\ tag c = Some k /\ cls c <> AuthCommand) :
  _handle_timeouts s
    = (Ok tt,
       with_calls
         (calls s ++ ((fun p => CallTimeout p.2) <$> List.filter (expired s) (cmd_queue s)))
         (with_cmd_queue (List.filter (fun p => negb (expired s p)) (cmd_queue s)) s)).
Proof.
  unfold _handle_timeouts, bind at 1, get at 1. unfold bind.
  rewrite timeouts_scan_eq.
  2: { intros k o Hin. destruct (Hwf k o Hin) as (c & -> & _). now eexists. }
  cbn [fst snd app].
  assert (((fun p => heap s !! p.2 ≫= tag) <$> List.filter (expired s) (cmd_queue s))
          = ((fun p => Some p.1) <$> List.filter (expired s) (cmd_queue s))) as ->.
  { apply list_fmap_ext. intros i [k o] Hi. simpl.
    apply list_elem_of_lookup_2 in Hi. apply list_elem_of_In in Hi.
    apply filter_In in Hi as [Hi _]. apply list_elem_of_In in Hi.
    destruct (Hwf k o Hi) as (c & -> & Ht & _). exact Ht. }
  rewrite timeouts_pop_eq.
  - now rewrite dels_filter.
  - intros Hne. unfold scan_cmd.
    destruct (last (cmd_queue s)) as [[k o]|] eqn:Hlast.
    + apply last_Some in Hlast as [l' Hl'].
      destruct (Hwf k o) as (c & Hc & _ & Hcls).
      { rewrite Hl'. apply elem_of_app. right. apply list_elem_of_here. }
      now exists o, c.
    + apply last_None in Hlast. rewrite Hlast in Hne. now contradiction Hne.
  - intros [k o] Hp. apply list_elem_of_In in Hp.
    apply filter_In in Hp as [Hp _]. apply list_elem_of_In in Hp.
    split; [now apply dict_get_of_elem|].
    destruct (Hwf k o Hp) as (c & Hc & _ & Hcls). now exists c.
  - now apply filter_keys_NoDup.
Qed.

(** X15: when every entry of the table holds a live command and none was
    sent more than [timeout] seconds ago, the sweep returns normally and
    changes nothing, whatever the commands are. *)
Theorem handle_timeouts_idle (s : Link)
    (Hlive : forall k o, (k, o) ∈ cmd_queue s -> is_Some (heap s !! o))
    (Hfresh : forall p, p ∈ cmd_queue s -> expired s p = false) :
  _handle_timeouts s = (Ok tt, s).
Proof.
  unfold _handle_timeouts, bind at 1, get at 1. unfold bind.
  rewrite timeouts_scan_eq by exact Hlive.
  assert (List.filter (expired s) (cmd_queue s) = []) as ->.
  { induction (cmd_queue s) as [|p d IH]; [reflexivity|]. simpl.
    rewrite (Hfresh p) by apply list_elem_of_here.
    apply IH.
    - intros k o Hin. apply (Hlive k). now apply list_elem_of_further.
    - intros q Hq. apply Hfresh. now apply list_elem_of_further. }
  reflexivity.
Qed.

Lemma handle_timeouts_sweeps_witness :
  NoDup (cmd_queue run4_late).*1 /\
  List.filter (expired run4_late) (cmd_queue run4_late) = [("T001", 0%nat)] /\
  _handle_timeouts run4_late
    = (Ok tt,
       with_calls
         (calls run4_late
            ++ ((fun p => CallTimeout p.2)
                  <$> List.filter (expired run4_late) (cmd_queue run4_late)))
         (with_cmd_queue
            (List.filter (fun p => negb (expired run4_late p)) (cmd_queue run4_late))
            run4_late)).
Proof.
  assert (cmd_queue run4_late = [("T001", 0%nat)]) as Hq by (vm_compute; reflexivity).
  assert (NoDup (cmd_queue run4_late).*1) as Hkeys.
  { rewrite Hq. apply NoDup_singleton. }
  assert (forall k o, (k, o) ∈ cmd_queue run4_late ->
            exists c, heap run4_late !! o = Some c /\ tag c = Some k
                      /\ cls c <> AuthCommand) as Hwf.
  { rewrite Hq. intros k o Hin. apply list_elem_of_singleton in Hin.
    injection Hin as -> ->. exists run4_command.
    split; [vm_compute; reflexivity|]. split; [reflexivity|discriminate]. }
  split; [exact Hkeys|]. split; [vm_compute; reflexivity|].
  exact (handle_timeouts_sweeps run4_late Hkeys Hwf).
Defined.

Lemma handle_timeouts_idle_witness :
  cmd_queue run4 = [("T001", 0%nat)] /\
  expired run4 ("T001", 0%nat) = false /\
  _handle_timeouts run4 = (Ok tt, run4).
Proof.
  assert (cmd_queue run4 = [("T001", 0%nat)]) as Hq by (vm_compute; reflexivity).
  assert (expired run4 ("T001", 0%nat) = false) as Hx by (vm_compute; reflexivity).
  assert (forall k o, (k, o) ∈ cmd_queue run4 -> is_Some (heap run4 !! o)) as Hlive.
  { rewrite Hq. intros k o Hin. apply list_elem_of_singleton in Hin.
    injection Hin as -> ->. exists run4_command. vm_compute. reflexivity. }
  assert (forall p, p ∈ cmd_queue run4 -> expired run4 p = false) as Hfresh.
  { rewrite Hq. intros p Hin. apply list_elem_of_singleton in Hin. now subst p. }
  split; [exact Hq|]. split; [exact Hx|].
  exact (handle_timeouts_idle run4 Hlive Hfresh).
Defined.

(** ** A round of the sender *)

(** [run_send] never returns normally either. *)
Lemma run_send_raises (o : oid) (s : Link) :
  exists e, run_send o s = (Raise e, snd (_send_command o s)).
Proof.
  unfold run_send, bind at 1. destruct (outcome_of_send o s) as [e He].
  destruct (_send_command o s) as [[[]|e'] s']; [discriminate|]. now exists e'.
Qed.

(** X19: a round of the sender loop never hands a command to
    [_send_command].  With an empty queue it sleeps 0.2 seconds and polls
    again.  With a command waiting it takes the command at the right end
    of the deque and ends with [AttributeError] at the log statement
    that follows the [pop]: the command has left the queue, nothing was
    sent, no login was started, and the exception ends the sender
    thread. *)
Theorem sender_round (s : Link) :
  (_queue s = [] -> run_poll s = (Ok SenderPolling, after_sleep (2 # 10) s)) /\
  (forall o q',
     deque_pop (_queue s) = Some (o, q') ->
     run_poll s = (Raise AttributeError, with_queue q' s) /\
     sender_after (fst (run_poll s)) = SenderCrashed AttributeError) /\
  (forall o, fst (run_poll s) <> Ok (SenderWaitAuth o)) /\
  fst (run_poll s) <> Ok SenderExited /\
  wire (snd (run_poll s)) = wire s /\
  _authenticating (snd (run_poll s)) = _authenticating s /\
  cmd_queue (snd (run_poll s)) = cmd_queue s.
Proof.
  rewrite run_poll_eq.
  destruct (deque_pop (_queue s)) as [[o q']|] eqn:Hpop; cbn [fst snd].
  - split.
    { intros Hq. rewrite Hq in Hpop. discriminate. }
    split; [intros o1 q1 [= <- <-]; now split|].
    split; [discriminate|]. split; [discriminate|]. now repeat split.
  - split; [reflexivity|]. split; [discriminate|].
    split; [discriminate|]. split; [discriminate|]. now repeat split.
Qed.

(** Three commands in the deque, as the last statement of [request]
    would have put them: the round takes the newest priority command and
    ends. *)
Example sender_round_pops :
  let s := with_queue [2%nat; 3%nat; 4%nat] (init_link 1000 20) in
  run_poll s = (Raise AttributeError, with_queue [2%nat; 3%nat] s).
Proof. reflexivity. Qed.

(** ** Nothing reaches the wire *)

(** [m] leaves the wire as it is, on every way out. *)
Definition keeps_wire {A} (m : M A) : Prop :=
  forall s, wire (snd (m s)) = wire s.

Lemma keeps_wire_bind {A B} (m : M A) (k : A -> M B) :
  keeps_wire m -> (forall a, keeps_wire (k a)) -> keeps_wire (bind m k).
Proof.
  intros Hm Hk s. unfold bind. specialize (Hm s).
  destruct (m s) as [[a|e] s']; cbn [snd] in *; [|exact Hm].
  now rewrite Hk.
Qed.

Lemma keeps_wire_ret {A} (a : A) : keeps_wire (ret a).
Proof. now intros s. Qed.

Lemma keeps_wire_raise {A} (e : exn) : keeps_wire (@raise A e).
Proof. now intros s. Qed.

Lemma keeps_wire_load (o : oid) : keeps_wire (load o).
Proof. intros s. unfold load. now destruct (heap s !! o). Qed.

Lemma keeps_wire_dict_pop (k : string) : keeps_wire (dict_pop k).
Proof. intros s. unfold dict_pop. now destruct (dict_get k (cmd_queue s)). Qed.

Lemma keeps_wire_request (o : oid) cb prio : keeps_wire (request o cb prio).
Proof.
  intros s. destruct (heap s !! o) as [c|] eqn:Hc.
  - now rewrite (request_eq o c cb prio s Hc).
  - unfold request. now rewrite (request_body_dangling _ o cb prio s Hc).
Qed.

Lemma keeps_wire__reauthenticate : keeps_wire _reauthenticate.
Proof.
  intros s. rewrite _reauthenticate_eq. now destruct (_authenticating s || _authed s).
Qed.

Lemma keeps_wire_reauthenticate : keeps_wire reauthenticate.
Proof. intros s. rewrite reauthenticate_eq. now rewrite keeps_wire__reauthenticate. Qed.

Lemma keeps_wire_timeouts_scan items cmd willpop :
  keeps_wire (timeouts_scan items cmd willpop).
Proof.
  revert cmd willpop. induction items as [|[t o] items IH]; intros cmd willpop; simpl.
  - apply keeps_wire_ret.
  - destruct (String.eqb t ""); [apply IH|].
    apply keeps_wire_bind; [apply keeps_wire_load|]. intros c.
    destruct (started_truthy c); [|apply IH].
    apply keeps_wire_bind; [now intros s|]. intros now.
    apply keeps_wire_bind; [now intros s|]. intros s.
    destruct (Qgt_bool _ _); apply IH.
Qed.

Lemma keeps_wire_timeouts_pop willpop cmd : keeps_wire (timeouts_pop willpop cmd).
Proof.
  revert cmd. induction willpop as [|t rest IH]; intros cmd; simpl.
  - apply keeps_wire_ret.
  - apply keeps_wire_bind.
    { destruct cmd; [apply keeps_wire_ret|apply keeps_wire_raise]. }
    intros o. apply keeps_wire_bind; [apply keeps_wire_load|]. intros c.
    apply keeps_wire_bind.
    { destruct (cls c);
        [apply keeps_wire_reauthenticate|apply keeps_wire_ret|apply keeps_wire_ret]. }
    intros _. apply keeps_wire_bind.
    { destruct t; [apply keeps_wire_dict_pop|apply keeps_wire_raise]. }
    intros o'. apply keeps_wire_bind; [now intros s|]. intros _. apply IH.
Qed.

Lemma keeps_wire_handle_timeouts : keeps_wire _handle_timeouts.
Proof.
  unfold _handle_timeouts. apply keeps_wire_bind; [now intros s|]. intros s.
  apply keeps_wire_bind; [apply keeps_wire_timeouts_scan|]. intros r.
  apply keeps_wire_timeouts_pop.
Qed.

(** X16: no method of the link or of the listener passes a datagram to
    [sendto]: whatever the state in which it is called and however it
    ends, [request], [reauthenticate], [_reauthenticate], [stop],
    [set_banned], [_send_command], [_do_delay], a round of the sender
    ([run_poll], [run_wait], [run_send]), a round of the listener for
    any datagram, and the expiry sweep leave the wire as it was. *)
Theorem nothing_is_sent
    (decompress : list Byte.byte -> option (list Byte.byte))
    (ResponseResolver : list Byte.byte -> option Response)
    (s : Link) :
  (forall o cb prio, wire (snd (request o cb prio s)) = wire s) /\
  wire (snd (reauthenticate s)) = wire s /\
  wire (snd (_reauthenticate s)) = wire s /\
  wire (snd (stop s)) = wire s /\
  (forall reason, wire (snd (set_banned reason s)) = wire s) /\
  (forall o, wire (snd (_send_command o s)) = wire s) /\
  wire (snd (_do_delay s)) = wire s /\
  wire (snd (run_poll s)) = wire s /\
  (forall o, wire (snd (run_wait o s)) = wire s) /\
  (forall o, wire (snd (run_send o s)) = wire s) /\
  (forall data, wire (snd (on_data decompress ResponseResolver data s)) = wire s) /\
  wire (snd (_handle_timeouts s)) = wire s.
Proof.
  assert (forall o, wire (snd (run_send o s)) = wire s) as Hsend.
  { intros o. destruct (run_send_raises o s) as [e ->]. cbn [snd].
    apply _send_command_frame. }
  split; [intros o cb prio; apply keeps_wire_request|].
  split; [apply keeps_wire_reauthenticate|].
  split; [apply keeps_wire__reauthenticate|].
  split; [rewrite stop_eq; now destruct (_authed s)|].
  split; [reflexivity|].
  split; [intros o; apply _send_command_frame|].
  split; [destruct (_do_delay_cases s) as [-> | ->]; reflexivity|].
  split; [rewrite run_poll_eq; now destruct (deque_pop (_queue s)) as [[o q']|]|].
  split.
  { intros o. unfold run_wait, bind at 1, get at 1.
    destruct (_authed s); [apply Hsend|reflexivity]. }
  split; [exact Hsend|]. split; [reflexivity|].
  apply keeps_wire_handle_timeouts.
Qed.

